(** * KDP auditor backend: rank-to-demand model and keyword scorer

    A shallow embedding of [services/bsr_calculator.py] (class
    [BSRCalculator]), of the numeric helpers of
    [services/keyword_service.py] (class [KeywordService]) and of
    [validate_asin] of [routes/kdp_routes.py].

    Numbers.  The rank-to-demand model calls [math.log10] and [**] on
    Python floats; these are embedded over the real numbers: a float is
    read as the real it denotes, [math.log10 x] as [ln x / ln 10], [x ** y]
    as [Rpower x y] and [round(x, 2)] as round-half-to-even on two decimals.
    Decimal literals of the tables ([0.1], [0.025]) are read at their
    decimal value, so a tie such as [round(0.015, 2)] may fall on the other
    side than it does in binary64; no statement below depends on the side
    a tie falls on.  Overflow is out of the model: the rank ratio
    [bsr / known_bsr] raises [OverflowError] from ranks of about
    [2 * 10 ^ 314], and two ranks far above [10 ^ 7] can share a binary64
    value, so the statements on positive and on distinct interpolated
    values carry a bound on the rank.  The keyword
    volume heuristic only multiplies, subtracts and truncates, so it is
    embedded on binary64 floats ([PrimFloat]), bit for bit.

    Text.  Strings are ASCII text; the statements on [str.upper] say so
    in a hypothesis, Python's upper-casing reaching ASCII letters from a
    few characters beyond ASCII.

    Exceptions.  A Python exception is [None] in the [option] monad;
    [try ... except Exception] is a [match] on the result. *)

From Stdlib Require Import Reals Lra Lia ZArith List Bool.
From Stdlib Require Import String Ascii Permutation Sorted.
From Stdlib Require Import Floats.
From Equations Require Import Equations.
Import ListNotations.

Set Warnings "-inexact-float".

(** ** Python runtime pieces shared by both services *)

Module Py.

(** Raising is [None]; sequencing stops at the first raise. *)
Definition bind {A B : Type} (m : option A) (k : A -> option B) : option B :=
  match m with
  | Some a => k a
  | None => None
  end.

(** A [dict] as the list of its items, in insertion order; keys are
    pairwise distinct in every dict literal of the program. *)
Definition dict (K V : Type) : Type := list (K * V).

Section Dict.
Variables (K V : Type) (eqb : K -> K -> bool).

(** [d[k]]: raises [KeyError] when [k] is absent. *)
Fixpoint getitem (d : dict K V) (k : K) : option V :=
  match d with
  | [] => None
  | (k', v) :: d' => if eqb k k' then Some v else getitem d' k
  end.

(** [d.get(k, default)]. *)
Definition get (d : dict K V) (k : K) (default : V) : V :=
  match getitem d k with
  | Some v => v
  | None => default
  end.

(** [d.keys()]. *)
Definition keys (d : dict K V) : list K := map fst d.
End Dict.

Arguments getitem {K V} eqb d k.
Arguments get {K V} eqb d k default.
Arguments keys {K V} d.

(** [sorted(xs, key=key)] on integer keys: a stable insertion sort (the
    result of a stable sort is unique, whatever algorithm computes it).
    [sorted] inserts the elements from the last one to the first one, and
    [insert] puts an element in front of those with an equal key, so
    elements with equal keys keep the order they had in [xs]. *)
Section Sorted.
Variables (A : Type) (key : A -> Z).

Fixpoint insert (x : A) (xs : list A) : list A :=
  match xs with
  | [] => [x]
  | y :: ys => if (key y <? key x)%Z then y :: insert x ys else x :: y :: ys
  end.

Definition sorted (xs : list A) : list A :=
  fold_right insert [] xs.
End Sorted.

Arguments insert {A} key x xs.
Arguments sorted {A} key xs.

(** [xs[0]] and [xs[-1]]: raise [IndexError] on the empty list. *)
Definition first {A : Type} (xs : list A) : option A := hd_error xs.

Fixpoint last {A : Type} (xs : list A) : option A :=
  match xs with
  | [] => None
  | [x] => Some x
  | _ :: xs' => last xs'
  end.

End Py.

Declare Scope py_scope.
Notation "x <- m ;; k" := (Py.bind m (fun x => k))
  (at level 61, m at next level, right associativity) : py_scope.

(** ** Real-number reading of the float operations *)

Module PyFloat.
Local Open Scope R_scope.

(** [math.log10 x]: raises [ValueError] unless [0 < x]. *)
Definition log10 (x : R) : option R :=
  if Rlt_dec 0 x then Some (ln x / ln 10) else None.

(** [x / y]: raises [ZeroDivisionError] when [y] is zero.  The
    [OverflowError] of a quotient of two integers beyond the binary64
    range is not modelled. *)
Definition truediv (x y : R) : option R :=
  if Req_dec_T y 0 then None else Some (x / y).

(** [x ** y] for a positive base [x]; the program raises a rank ratio to
    a power and [10] to a power, both positive. *)
Definition pow (x y : R) : R := Rpower x y.

(** Nearest integer, ties to the even one. *)
Definition round_half_even (x : R) : Z :=
  let f := Int_part x in
  let d := x - IZR f in
  if Rlt_dec d (1 / 2) then f
  else if Rlt_dec (1 / 2) d then (f + 1)%Z
  else if Z.even f then f else (f + 1)%Z.

(** [round(x, 2)]. *)
Definition round2 (x : R) : R := IZR (round_half_even (x * 100)) / 100.

(** [round(x, 3)]. *)
Definition round3 (x : R) : R := IZR (round_half_even (x * 1000)) / 1000.

(** [x > y] and friends, as booleans. *)
Definition gtb (x y : R) : bool := if Rlt_dec y x then true else false.
Definition ltb (x y : R) : bool := if Rlt_dec x y then true else false.

(** [sum(xs)]: left to right from [0], without the rounding of each
    binary64 addition. *)
Definition sum (xs : list R) : R := fold_left Rplus xs 0.

(** [max(xs)] and [min(xs)] of a non-empty list: the first element wins
    ties, later ones replace it only when strictly better. *)
Definition max_list (xs : list R) : option R :=
  match xs with
  | [] => None
  | x :: xs' => Some (fold_left (fun m y => if Rlt_dec m y then y else m) xs' x)
  end.

Definition min_list (xs : list R) : option R :=
  match xs with
  | [] => None
  | x :: xs' => Some (fold_left (fun m y => if Rlt_dec y m then y else m) xs' x)
  end.
End PyFloat.


(** ** [services/bsr_calculator.py] *)

Module BSRCalculator.
Import Py PyFloat.
Local Open Scope R_scope.
Local Open Scope py_scope.
Local Open Scope string_scope.

(** A calibration table: rank anchor to sales per day. *)
Definition table : Type := dict Z R.

Definition com_ebook : table :=
  [ (1%Z, 5000); (10%Z, 1500); (100%Z, 300); (1000%Z, 50); (10000%Z, 8);
    (100000%Z, 1); (1000000%Z, 0.1) ].
Definition com_paperback : table :=
  [ (1%Z, 2000); (10%Z, 600); (100%Z, 120); (1000%Z, 20); (10000%Z, 3);
    (100000%Z, 0.5); (1000000%Z, 0.05) ].
Definition com_hardcover : table :=
  [ (1%Z, 1000); (10%Z, 300); (100%Z, 60); (1000%Z, 10); (10000%Z, 1.5);
    (100000%Z, 0.25); (1000000%Z, 0.025) ].
Definition uk_ebook : table :=
  [ (1%Z, 1500); (10%Z, 450); (100%Z, 90); (1000%Z, 15); (10000%Z, 2.4);
    (100000%Z, 0.3); (1000000%Z, 0.03) ].
Definition uk_paperback : table :=
  [ (1%Z, 600); (10%Z, 180); (100%Z, 36); (1000%Z, 6); (10000%Z, 0.9);
    (100000%Z, 0.15); (1000000%Z, 0.015) ].
Definition uk_hardcover : table :=
  [ (1%Z, 300); (10%Z, 90); (100%Z, 18); (1000%Z, 3); (10000%Z, 0.45);
    (100000%Z, 0.075); (1000000%Z, 0.0075) ].

(** [self.conversion_tables] *)
Definition conversion_tables : dict string (dict string table) :=
  [ ("amazon.com",
      [ ("ebook", com_ebook); ("paperback", com_paperback);
        ("hardcover", com_hardcover) ]);
    ("amazon.co.uk",
      [ ("ebook", uk_ebook); ("paperback", uk_paperback);
        ("hardcover", uk_hardcover) ]) ].

Definition _extrapolate_high_performance
    (bsr known_bsr : Z) (known_sales : R) : option R :=
  ratio <- truediv (IZR known_bsr) (IZR bsr) ;;
  Some (known_sales * pow ratio 0.7).

Definition _extrapolate_low_performance
    (bsr known_bsr : Z) (known_sales : R) : option R :=
  ratio <- truediv (IZR bsr) (IZR known_bsr) ;;
  truediv known_sales (pow ratio 0.8).

(** The body of the [if lower_bsr <= bsr <= upper_bsr:] branch. *)
Definition log_interpolate
    (bsr lower_bsr upper_bsr : Z) (conversion_table : table) : option R :=
  lower_sales <- getitem Z.eqb conversion_table lower_bsr ;;
  upper_sales <- getitem Z.eqb conversion_table upper_bsr ;;
  log_bsr <- log10 (IZR bsr) ;;
  log_lower <- log10 (IZR lower_bsr) ;;
  log_upper <- log10 (IZR upper_bsr) ;;
  ratio <- truediv (log_bsr - log_lower) (log_upper - log_lower) ;;
  log_lower_sales <- log10 (Rmax lower_sales 0.001) ;;
  log_upper_sales <- log10 (Rmax upper_sales 0.001) ;;
  let log_sales :=
    log_lower_sales + ratio * (log_upper_sales - log_lower_sales) in
  Some (pow 10 log_sales).

(** [for i in range(len(bsr_points) - 1)]: the consecutive pairs
    [(bsr_points[i], bsr_points[i + 1])] in order, returning at the first
    bracket that holds [bsr]; [0.0] when the loop falls through. *)
Fixpoint find_bracket
    (bsr : Z) (conversion_table : table) (bsr_points : list Z) : option R :=
  match bsr_points with
  | lower_bsr :: ((upper_bsr :: _) as rest) =>
      if ((lower_bsr <=? bsr) && (bsr <=? upper_bsr))%Z
      then log_interpolate bsr lower_bsr upper_bsr conversion_table
      else find_bracket bsr conversion_table rest
  | _ => Some 0
  end.

Definition _interpolate_sales (bsr : Z) (conversion_table : table) : option R :=
  if (bsr <=? 0)%Z then Some 0
  else
    let bsr_points := sorted (fun k : Z => k) (keys conversion_table) in
    best <- first bsr_points ;;
    if (bsr <? best)%Z then
      known_sales <- getitem Z.eqb conversion_table best ;;
      _extrapolate_high_performance bsr best known_sales
    else
      worst <- last bsr_points ;;
      if (bsr >? worst)%Z then
        known_sales <- getitem Z.eqb conversion_table worst ;;
        _extrapolate_low_performance bsr worst known_sales
      else find_bracket bsr conversion_table bsr_points.

(** The two [.get(..., default)] lookups that open both public methods. *)
Definition select_table (book_type marketplace : string) : option table :=
  default_marketplace <- getitem String.eqb conversion_tables "amazon.com" ;;
  let marketplace_table :=
    get String.eqb conversion_tables marketplace default_marketplace in
  default_book_type <- getitem String.eqb marketplace_table "ebook" ;;
  Some (get String.eqb marketplace_table book_type default_book_type).

(** The [try] block of [calculate_sales_estimates]. *)
Definition calculate_sales_estimates_try
    (bsr : Z) (book_type marketplace : string) : option (R * R) :=
  book_type_table <- select_table book_type marketplace ;;
  daily_sales <- _interpolate_sales bsr book_type_table ;;
  let monthly_sales := daily_sales * 30 in
  Some (round2 daily_sales, round2 monthly_sales).

Definition calculate_sales_estimates
    (bsr : Z) (book_type marketplace : string) : R * R :=
  match calculate_sales_estimates_try bsr book_type marketplace with
  | Some result => result
  | None => (0, 0)
  end.

(** The [while high_bsr - low_bsr > 1] loop of [get_bsr_for_target_sales];
    the interval shrinks at every turn. *)
Equations? bisect (conversion_table : table) (target_daily_sales : R)
    (low_bsr high_bsr : Z) : option Z
    by wf (Z.to_nat (high_bsr - low_bsr)) lt :=
  bisect conversion_table target_daily_sales low_bsr high_bsr
    with Z_lt_dec 1 (high_bsr - low_bsr) := {
    | left _ =>
        let mid_bsr := ((low_bsr + high_bsr) / 2)%Z in
        match _interpolate_sales mid_bsr conversion_table with
        | None => None
        | Some estimated_sales =>
            if gtb estimated_sales target_daily_sales
            then bisect conversion_table target_daily_sales mid_bsr high_bsr
            else bisect conversion_table target_daily_sales low_bsr mid_bsr
        end
    | right _ => Some low_bsr }.
Proof.
  all: subst mid_bsr; apply Z2Nat.inj_lt; Z.div_mod_to_equations; lia.
Qed.

(** [None] is the method's own [return None] after a caught exception. *)
Definition get_bsr_for_target_sales
    (target_daily_sales : R) (book_type marketplace : string) : option Z :=
  book_type_table <- select_table book_type marketplace ;;
  bisect book_type_table target_daily_sales 1 10000000.

(** One item of [bsr_history]; the two optional keys are read with
    [record.get(key, default)]. *)
Record bsr_record : Type := {
  rank : Z;
  timestamp : Z;
  book_type : option string;
  marketplace : option string
}.

Record trend_analysis : Type := {
  trend : string;
  current_daily_sales : R;
  average_daily_sales : R;
  best_daily_sales : R;
  worst_daily_sales : R;
  change_percent : R
}.

(** The returned dict: either [{'trend': 'insufficient_data'}] alone or
    the six-key analysis. *)
Inductive trend_result : Type :=
| InsufficientData
| Analysis (a : trend_analysis).

Definition trend_label (r : trend_result) : string :=
  match r with
  | InsufficientData => "insufficient_data"
  | Analysis a => trend a
  end.

Definition record_sales (record : bsr_record) : R :=
  fst (calculate_sales_estimates (rank record)
         (match book_type record with Some b => b | None => "ebook" end)
         (match marketplace record with Some m => m | None => "amazon.com" end)).

(** [xs[-3:]] and [xs[:-3]]. *)
Definition last3 {A : Type} (xs : list A) : list A :=
  skipn (List.length xs - 3) xs.
Definition but_last3 {A : Type} (xs : list A) : list A :=
  firstn (List.length xs - 3) xs.

Definition get_sales_trend_analysis
    (bsr_history : list bsr_record) : option trend_result :=
  if (List.length bsr_history <? 2)%nat then Some InsufficientData
  else
    let sorted_history := sorted timestamp bsr_history in
    let sales_data := map record_sales sorted_history in
    sales_first <- first sales_data ;;
    sales_last <- last sales_data ;;
    verdict <-
      (if (3 <=? List.length sales_data)%nat then
         let recent_avg := sum (last3 sales_data) / 3 in
         older_avg <-
           (if (3 <? List.length sales_data)%nat
            then truediv (sum (but_last3 sales_data))
                   (INR (List.length (but_last3 sales_data)))
            else Some sales_first) ;;
         let change_percent :=
           if gtb older_avg 0
           then (recent_avg - older_avg) / older_avg * 100 else 0 in
         Some (if gtb change_percent 10 then "improving"
               else if ltb change_percent (-10) then "declining"
               else "stable",
               change_percent)
       else
         Some (if gtb sales_last sales_first then "improving"
               else if ltb sales_last sales_first then "declining"
               else "stable",
               0)) ;;
    average <- truediv (sum sales_data) (INR (List.length sales_data)) ;;
    best <- max_list sales_data ;;
    worst <- min_list sales_data ;;
    Some (Analysis {|
      trend := fst verdict;
      current_daily_sales := sales_last;
      average_daily_sales := average;
      best_daily_sales := best;
      worst_daily_sales := worst;
      change_percent := snd verdict |}).

End BSRCalculator.

(** ** [services/keyword_service.py] *)

Module KeywordService.
Local Open Scope Z_scope.

(** *** Strings (keywords are read as ASCII text) *)

(** The ASCII characters [str.split()] treats as white space. *)
Definition is_space (c : ascii) : bool :=
  let n := Z.of_nat (nat_of_ascii c) in
  ((9 <=? n) && (n <=? 13)) || ((28 <=? n) && (n <=? 32)).

(** [s.split()]: maximal runs of non-space characters.  [word] holds the
    characters of the run being read, most recent first. *)
Fixpoint split_from (word : list ascii) (s : string) : list string :=
  let flush (rest : list string) :=
    match word with
    | [] => rest
    | _ => string_of_list_ascii (rev word) :: rest
    end in
  match s with
  | EmptyString => flush []
  | String c s' =>
      if is_space c then flush (split_from [] s')
      else split_from (c :: word) s'
  end.

Definition split (s : string) : list string := split_from [] s.

Definition lower_char (c : ascii) : ascii :=
  let n := nat_of_ascii c in
  if ((65 <=? n) && (n <=? 90))%nat then ascii_of_nat (n + 32) else c.

(** [s.lower()] *)
Fixpoint lower (s : string) : string :=
  match s with
  | EmptyString => EmptyString
  | String c s' => String (lower_char c) (lower s')
  end.

(** [word in s]: [word] occurs in [s] as a substring. *)
Fixpoint contains (word s : string) : bool :=
  String.prefix word s
  || match s with
     | EmptyString => false
     | String _ s' => contains word s'
     end.

(** *** binary64 arithmetic *)

(** [float(n)] for the [int * float] products: exact below [2^53], to
    nearest-even above.  Python raises [OverflowError] beyond the binary64
    range, which no word count and no volume comes near. *)
Definition float_of_int (n : Z) : float :=
  match n with
  | Z0 => 0%float
  | Zpos p => SF2Prim (binary_normalize prec emax (Zpos p) 0 false)
  | Zneg p => (- SF2Prim (binary_normalize prec emax (Zpos p) 0 false))%float
  end.

(** [int(x)]: truncation towards zero; raises on infinities and NaN. *)
Definition int_of_float (x : float) : option Z :=
  match Prim2SF x with
  | S754_zero _ => Some 0
  | S754_finite s m e =>
      let a := if 0 <=? e then Zpos m * 2 ^ e else Zpos m / 2 ^ (- e) in
      Some (if s then - a else a)
  | S754_infinity _ | S754_nan => None
  end.

(** [max(a, b)] on floats: [b] only when it is strictly greater. *)
Definition fmax (a b : float) : float := if (a <? b)%float then b else a.

Definition common_words : list string :=
  [ "book"; "guide"; "how"; "best"; "top"; "learn" ]%string.

(** [length_factor] of a keyword with [word_count] words. *)
Definition length_factor (word_count : Z) : float :=
  fmax 0.1 (1.0 - float_of_int (word_count - 1) * 0.2)%float.

(** One turn of [for word in common_words]. *)
Definition common_step (keyword : string) (common_factor : float)
    (word : string) : float :=
  if contains word (lower keyword) then (common_factor * 1.5)%float
  else common_factor.

(** [_estimate_search_volume]; [jitter] is the value drawn by
    [random.uniform(0.5, 2.0)]. *)
Definition _estimate_search_volume (keyword : string) (jitter : float)
    : option Z :=
  let base_volume := 1000 in
  let length_factor :=
    length_factor (Z.of_nat (List.length (split keyword))) in
  let common_factor := fold_left (common_step keyword) common_words 1.0%float in
  Py.bind
    (int_of_float (float_of_int base_volume * length_factor * common_factor)%float)
    (fun estimated_volume =>
       Py.bind (int_of_float (float_of_int estimated_volume * jitter)%float)
         (fun estimated_volume => Some (Z.max 10 estimated_volume))).

(** [min(a, b)] on floats: [b] only when it is strictly smaller. *)
Definition fmin (a b : float) : float := if (b <? a)%float then b else a.

(** [_calculate_competition_score]; [jitter] is the value drawn by
    [random.uniform(0.7, 1.3)]. *)
Definition _calculate_competition_score (keyword : string) (jitter : float)
    : float :=
  let word_count := Z.of_nat (List.length (split keyword)) in
  let base_competition :=
    if word_count =? 1 then 0.8%float
    else if word_count =? 2 then 0.6%float
    else if word_count =? 3 then 0.4%float
    else 0.2%float in
  let competition := (base_competition * jitter)%float in
  fmin 1.0 (fmax 0.0 competition).

(** [_calculate_opportunity_score], on the real-number reading of floats
    that [math.log10] calls for. *)
Definition _calculate_opportunity_score
    (search_volume : Z) (competition_score : R) : option R :=
  if search_volume <=? 0 then Some 0%R
  else
    Py.bind (PyFloat.log10 (IZR search_volume))
      (fun log_volume =>
         let volume_score := Rmin 1 (log_volume / 4) in
         let competition_score_inverted := (1 - competition_score)%R in
         let opportunity :=
           (volume_score * 0.6 + competition_score_inverted * 0.4)%R in
         Some (PyFloat.round3 opportunity)).

(** [sep.join(words)] *)
Fixpoint join (sep : string) (words : list string) : string :=
  match words with
  | [] => EmptyString
  | [word] => word
  | word :: words' => (word ++ sep ++ join sep words')%string
  end.

Definition prefixes : list string :=
  [ "best"; "top"; "ultimate"; "complete"; "beginner"; "advanced";
    "how to" ]%string.

Definition suffixes : list string :=
  [ "book"; "guide"; "manual"; "handbook"; "for beginners";
    "step by step" ]%string.

(** [_generate_related_keywords]: the two [for] loops append one keyword
    per prefix and one per suffix, in order. *)
Definition _generate_related_keywords (seed_keyword : string) : list string :=
  let related :=
    (map (fun prefix => (prefix ++ " " ++ seed_keyword)%string) prefixes
     ++ map (fun suffix => (seed_keyword ++ " " ++ suffix)%string) suffixes)
    %list in
  let words := split seed_keyword in
  if (1 <? List.length words)%nat
  then related ++ [join " " (rev words)]
  else related.

(** *** Freshness *)

(** A naive [datetime], as its count of microseconds since the epoch. *)
Definition datetime : Type := Z.

(** A normalised [timedelta]: [0 <= seconds < 86400] and
    [0 <= microseconds < 1000000], the sign lives in [days]. *)
Record timedelta : Type := {
  days : Z;
  seconds : Z;
  microseconds : Z
}.

Definition us_per_second : Z := 1000000.
Definition us_per_day : Z := 86400 * us_per_second.

(** [a - b] on datetimes. *)
Definition datetime_sub (a b : datetime) : timedelta :=
  let us := a - b in
  {| days := us / us_per_day;
     seconds := (us mod us_per_day) / us_per_second;
     microseconds := us mod us_per_second |}.

Definition default_max_age_days : Z := 7.

(** [_is_data_fresh]; [utcnow] is the value read by [datetime.utcnow()],
    [None] is a missing [last_updated]. *)
Definition _is_data_fresh (utcnow : datetime)
    (last_updated : option datetime) (max_age_days : Z) : bool :=
  match last_updated with
  | None => false
  | Some last_updated =>
      let age := datetime_sub utcnow last_updated in
      days age <? max_age_days
  end.

End KeywordService.

(** ** [routes/kdp_routes.py] *)

Module KdpRoutes.

(** Strings are read as ASCII text.  [c.upper()] of an ASCII character:
    the letters [a] to [z] go to [A] to [Z], every other character stays.
    Beyond ASCII, Python's [str.upper] sends a few characters to ASCII
    letters (U+0131 to [I], U+017F to [S], U+00DF to [SS]); such text is
    not covered, and the statements about [upper] are made for ASCII
    text only. *)
Definition upper_char (c : ascii) : ascii :=
  let n := nat_of_ascii c in
  if ((97 <=? n) && (n <=? 122))%nat then ascii_of_nat (n - 32) else c.

(** [s.upper()] of ASCII text. *)
Fixpoint upper (s : string) : string :=
  match s with
  | EmptyString => EmptyString
  | String c s' => String (upper_char c) (upper s')
  end.

(** The character class [[A-Z0-9]]. *)
Definition in_class (c : ascii) : bool :=
  let n := nat_of_ascii c in
  (((65 <=? n) && (n <=? 90)) || ((48 <=? n) && (n <=? 57)))%nat.

(** [[A-Z0-9]{n}$] at the start of [s]: [n] characters of the class, then
    the end of the string or a single final newline. *)
Fixpoint class_run_then_end (n : nat) (s : string) : bool :=
  match n with
  | O =>
      match s with
      | EmptyString => true
      | String c EmptyString => (nat_of_ascii c =? 10)%nat
      | _ => false
      end
  | S n' =>
      match s with
      | EmptyString => false
      | String c s' => in_class c && class_run_then_end n' s'
      end
  end.

(** [validate_asin]; [None] is a missing [asin]. *)
Definition validate_asin (asin : option string) : bool :=
  match asin with
  | None => false
  | Some asin =>
      if (String.length asin =? 0)%nat || negb (String.length asin =? 10)%nat
      then false
      else class_run_then_end 10 (upper asin)
  end.

End KdpRoutes.


(** * Vocabulary of the properties *)

(** ** The log-log segment and the two power-law tails, as real functions *)

Module Curve.
Local Open Scope R_scope.

Definition lg (x : R) : R := ln x / ln 10.

(** The interpolated value between the anchors [(lo, slo)] and
    [(hi, shi)]. *)
Definition segment (lo hi : Z) (slo shi : R) (r : Z) : R :=
  Rpower 10
    (lg slo
     + (lg (IZR r) - lg (IZR lo)) / (lg (IZR hi) - lg (IZR lo))
       * (lg shi - lg slo)).

(** [_extrapolate_low_performance]: the tail beyond the last anchor. *)
Definition tail_worse (k : Z) (s : R) (r : Z) : R :=
  s / Rpower (IZR r / IZR k) 0.8.

(** [_extrapolate_high_performance]: the tail before the first anchor. *)
Definition tail_better (k : Z) (s : R) (r : Z) : R :=
  s * Rpower (IZR k / IZR r) 0.7.

End Curve.

(** ** Calibrated tables and the curve they define *)

Module Calibration.
Import Py PyFloat BSRCalculator Curve.
Local Open Scope R_scope.
Local Open Scope string_scope.

(** The anchors that follow [(k, s)]: ranks strictly increase, sales do
    not increase and stay at or above the [0.001] floor. *)
Fixpoint descends (k : Z) (s : R) (t : table) : Prop :=
  match t with
  | [] => True
  | (k', s') :: t' =>
      (k < k')%Z /\ s' <= s /\ 0.001 <= s' /\ descends k' s' t'
  end.

(** At least two anchors, listed by increasing positive rank. *)
Definition calibrated (t : table) : Prop :=
  match t with
  | (k, s) :: ((_ :: _) as t') => (0 < k)%Z /\ 0.001 <= s /\ descends k s t'
  | _ => False
  end.

(** The last anchor of the chain that starts at [(k, s)]. *)
Fixpoint chain_last (k : Z) (s : R) (t : table) : Z * R :=
  match t with
  | [] => (k, s)
  | (k', s') :: t' => chain_last k' s' t'
  end.

(** The value read off the first bracket of the chain that holds [r]. *)
Fixpoint chain_value (r : Z) (k : Z) (s : R) (t : table) : R :=
  match t with
  | [] => 0
  | (k', s') :: t' =>
      if ((k <=? r) && (r <=? k'))%Z then segment k k' s s' r
      else chain_value r k' s' t'
  end.

(** The whole rank-to-sales curve of a table. *)
Definition sales_curve (t : table) (r : Z) : R :=
  match t with
  | [] => 0
  | (k, s) :: t' =>
      if (r <? k)%Z then tail_better k s r
      else if (r >? fst (chain_last k s t'))%Z
           then tail_worse (fst (chain_last k s t')) (snd (chain_last k s t')) r
           else chain_value r k s t'
  end.

Definition agrees (T ps : table) : Prop :=
  forall k s, In (k, s) ps -> getitem Z.eqb T k = Some s.

Definition all_tables : list table :=
  [ com_ebook; com_paperback; com_hardcover;
    uk_ebook; uk_paperback; uk_hardcover ].

(** The marketplace and the book type whose table a request ends up
    with: a marketplace that is no key of [conversion_tables] is replaced
    by amazon.com, then a book type that is no key of that marketplace's
    tables by ebook. *)
Definition fallback_marketplace (marketplace : string) : string :=
  if existsb (String.eqb marketplace) (keys conversion_tables)
  then marketplace else "amazon.com".

Definition fallback_book_type (book_type marketplace : string) : string :=
  let marketplace_table :=
    get String.eqb conversion_tables (fallback_marketplace marketplace) [] in
  if existsb (String.eqb book_type) (keys marketplace_table)
  then book_type else "ebook".

(** Whether a marketplace is a key of [conversion_tables], and whether a
    book type is a key of the tables the marketplace is answered from. *)
Definition known_marketplace (marketplace : string) : bool :=
  existsb (String.eqb marketplace) (keys conversion_tables).

Definition known_book_type (book_type marketplace : string) : bool :=
  existsb (String.eqb book_type)
    (keys (get String.eqb conversion_tables
             (fallback_marketplace marketplace) [])).

End Calibration.

(** ** Trend vocabulary and the two example histories *)

Module TrendSpec.
Import Py PyFloat BSRCalculator.
Local Open Scope R_scope.
Local Open Scope string_scope.

(** The estimated daily sales of a history, oldest entry first. *)
Definition daily_sales_by_time (bsr_history : list bsr_record) : list R :=
  map record_sales (sorted timestamp bsr_history).

Definition mean (xs : list R) : R := sum xs / INR (List.length xs).


(** The three-way comparison of a value with an earlier one. *)
Definition compare_directly (earlier later : R) (label : string) : Prop :=
  (earlier < later -> label = "improving")
  /\ (later < earlier -> label = "declining")
  /\ (later = earlier -> label = "stable").

Definition entry (rank timestamp : Z) : bsr_record :=
  {| rank := rank; timestamp := timestamp;
     book_type := None; marketplace := None |}.

(** Ranks 50000, 30000, 10000 at increasing times. *)
Definition improving_history : list bsr_record :=
  [ entry 50000 1; entry 30000 2; entry 10000 3 ].

(** Rank 100, then rank 99. *)
Definition close_history : list bsr_record :=
  [ entry 100 1; entry 99 2 ].

End TrendSpec.

(** ** The volume estimate in closed form *)

Module VolumeSpec.
Import KeywordService.
Local Open Scope Z_scope.

(** [1.5] multiplied into [1.0] [n] times, as the loop does it. *)
Fixpoint times_one_and_a_half (n : nat) (x : float) : float :=
  match n with
  | O => x
  | S n' => times_one_and_a_half n' (x * 1.5)%float
  end.

(** The terms of the fixed set found in the lowercased keyword. *)
Definition common_terms_in (keyword : string) : list string :=
  filter (fun word => contains word (lower keyword)) common_words.

(** The estimate as the spec words it: the product of the four factors,
    floored at 10, with no truncation in between. *)
Definition spec_search_volume (keyword : string) (jitter : float) : float :=
  fmax 10
    (float_of_int 1000
     * length_factor (Z.of_nat (List.length (split keyword)))
     * times_one_and_a_half (List.length (common_terms_in keyword)) 1.0
     * jitter)%float.

End VolumeSpec.

(** ** Shapes of tables: strict decrease and pointwise order *)

Module TableShape.
Import Py PyFloat BSRCalculator.
Local Open Scope R_scope.

(** The sales that follow [s] in the table decrease strictly. *)
Fixpoint strictly_descends (s : R) (t : table) : Prop :=
  match t with
  | [] => True
  | (_, s') :: t' => s' < s /\ strictly_descends s' t'
  end.

Definition strictly_decreasing (t : table) : Prop :=
  match t with
  | [] => True
  | (_, s) :: t' => strictly_descends s t'
  end.

(** Same anchors, and at each anchor the sales of [t1] are at most those
    of [t2]. *)
Fixpoint below (t1 t2 : table) : Prop :=
  match t1, t2 with
  | [], [] => True
  | (k1, s1) :: t1', (k2, s2) :: t2' => k1 = k2 /\ s1 <= s2 /\ below t1' t2'
  | _, _ => False
  end.

End TableShape.

(** ** Words and character classes *)

Module TextShape.
Import KeywordService KdpRoutes.

(** A word: at least one character, none of them white space. *)
Definition is_word (w : string) : Prop :=
  w <> EmptyString
  /\ forallb (fun c => negb (is_space c)) (list_ascii_of_string w) = true.

(** An ASCII letter of either case, or a digit. *)
Definition is_alnum (c : ascii) : bool :=
  let n := nat_of_ascii c in
  (((65 <=? n) && (n <=? 90)) || ((97 <=? n) && (n <=? 122))
   || ((48 <=? n) && (n <=? 57)))%nat.

(** Text made of ASCII characters only: every code is below 128. *)
Definition is_ascii (s : string) : bool :=
  forallb (fun c => (nat_of_ascii c <? 128)%nat) (list_ascii_of_string s).

End TextShape.

Import Curve Calibration TrendSpec VolumeSpec TableShape TextShape.

(** * Properties *)

(** ** Rounding to two decimals *)

Section Rounding.
Import PyFloat.
Local Open Scope R_scope.

Lemma Int_part_bounds (x : R) : IZR (Int_part x) <= x < IZR (Int_part x) + 1.
Proof. destruct (base_Int_part x); lra. Qed.

Lemma Int_part_le (x y : R) : x <= y -> (Int_part x <= Int_part y)%Z.
Proof.
  intros Hxy.
  pose proof (Int_part_bounds x) as Hx.
  pose proof (Int_part_bounds y) as Hy.
  assert (IZR (Int_part x) < IZR (Int_part y + 1)) as H
    by (rewrite plus_IZR; lra).
  apply lt_IZR in H. lia.
Qed.

Lemma Int_part_IZR (k : Z) : Int_part (IZR k) = k.
Proof. symmetry. apply Int_part_spec. lra. Qed.

Lemma round_half_even_range (x : R) :
  (Int_part x <= round_half_even x <= Int_part x + 1)%Z.
Proof.
  unfold round_half_even; cbv zeta.
  repeat destruct Rlt_dec; try destruct (Z.even _); lia.
Qed.

Lemma round_half_even_le (x y : R) :
  x <= y -> (round_half_even x <= round_half_even y)%Z.
Proof.
  intros Hxy.
  pose proof (Int_part_le _ _ Hxy) as Hf.
  destruct (Z.eq_dec (Int_part x) (Int_part y)) as [Heq | Hne].
  - unfold round_half_even; cbv zeta. rewrite Heq.
    repeat destruct Rlt_dec; try destruct (Z.even _); try lia; exfalso; lra.
  - pose proof (round_half_even_range x).
    pose proof (round_half_even_range y).
    lia.
Qed.

Lemma round_half_even_near (x : R) :
  - (1 / 2) <= IZR (round_half_even x) - x <= 1 / 2.
Proof.
  pose proof (Int_part_bounds x) as Hx.
  unfold round_half_even; cbv zeta.
  repeat destruct Rlt_dec; try destruct (Z.even _);
    rewrite ?plus_IZR; lra.
Qed.

Lemma round_half_even_IZR (k : Z) : round_half_even (IZR k) = k.
Proof.
  unfold round_half_even; cbv zeta. rewrite Int_part_IZR.
  destruct Rlt_dec; [reflexivity | lra].
Qed.

Lemma round2_le (x y : R) : x <= y -> round2 x <= round2 y.
Proof.
  intros Hxy. unfold round2.
  assert (round_half_even (x * 100) <= round_half_even (y * 100))%Z as H
    by (apply round_half_even_le; lra).
  apply IZR_le in H. lra.
Qed.

Lemma round2_near (x : R) : - (5 / 1000) <= round2 x - x <= 5 / 1000.
Proof.
  unfold round2.
  pose proof (round_half_even_near (x * 100)) as H.
  lra.
Qed.

(** A value with at most two decimals is its own rounding. *)
Lemma round2_cents (k : Z) : round2 (IZR k / 100) = IZR k / 100.
Proof.
  unfold round2.
  replace (IZR k / 100 * 100) with (IZR k) by lra.
  now rewrite round_half_even_IZR.
Qed.

Lemma round2_cents_eq (x : R) (k : Z) : x * 100 = IZR k -> round2 x = x.
Proof.
  intros H. replace x with (IZR k / 100) by lra. apply round2_cents.
Qed.

Lemma round2_is_cents (x : R) : exists k : Z, round2 x * 100 = IZR k.
Proof. exists (round_half_even (x * 100)). unfold round2. lra. Qed.

Lemma round2_nonneg (x : R) : 0 <= x -> 0 <= round2 x.
Proof.
  intros Hx. replace 0 with (round2 0).
  - now apply round2_le.
  - apply round2_cents_eq with (k := 0%Z). lra.
Qed.
End Rounding.

(** ** Logarithms, segments and tails *)

Section CurveFacts.
Local Open Scope R_scope.

Lemma ln10_pos : 0 < ln 10.
Proof. rewrite <- ln_1. apply ln_increasing; lra. Qed.

Lemma lg_lt (x y : R) : 0 < x -> x < y -> lg x < lg y.
Proof.
  intros Hx Hxy. unfold lg.
  pose proof ln10_pos. pose proof (ln_increasing x y Hx Hxy).
  apply Rmult_lt_compat_r; [apply Rinv_0_lt_compat|]; assumption.
Qed.

Lemma lg_le (x y : R) : 0 < x -> x <= y -> lg x <= lg y.
Proof.
  intros Hx [Hlt | ->]; [left; now apply lg_lt | right; reflexivity].
Qed.

Lemma lg_1 : lg 1 = 0.
Proof. unfold lg. rewrite ln_1. lra. Qed.

Lemma pow10_lg (x : R) : 0 < x -> Rpower 10 (lg x) = x.
Proof.
  intros Hx. unfold Rpower, lg. pose proof ln10_pos.
  replace (ln x / ln 10 * ln 10) with (ln x) by (field; lra).
  now apply exp_ln.
Qed.

Lemma Rpower_pos (x y : R) : 0 < Rpower x y.
Proof. apply exp_pos. Qed.

Lemma Rpower_ge_1 (x y : R) : 1 <= x -> 0 <= y -> 1 <= Rpower x y.
Proof.
  intros Hx Hy. rewrite <- (Rpower_O x) by lra. now apply Rle_Rpower.
Qed.

Section Segment.
Variables (lo hi : Z) (slo shi : R).
Hypothesis lo_pos : (0 < lo)%Z.
Hypothesis lo_hi : (lo < hi)%Z.
Hypothesis shi_pos : 0 < shi.
Hypothesis shi_slo : shi <= slo.

Lemma segment_width : 0 < lg (IZR hi) - lg (IZR lo).
Proof.
  assert (lg (IZR lo) < lg (IZR hi)); [|lra].
  apply lg_lt; [apply IZR_lt; lia | now apply IZR_lt].
Qed.

Lemma segment_lo : segment lo hi slo shi lo = slo.
Proof.
  unfold segment.
  replace (lg (IZR lo) - lg (IZR lo)) with 0 by lra.
  unfold Rdiv. rewrite Rmult_0_l, Rmult_0_l, Rplus_0_r.
  apply pow10_lg. lra.
Qed.

Lemma segment_hi : segment lo hi slo shi hi = shi.
Proof.
  unfold segment. pose proof segment_width.
  replace ((lg (IZR hi) - lg (IZR lo)) / (lg (IZR hi) - lg (IZR lo)))
    with 1 by (field; lra).
  replace (lg slo + 1 * (lg shi - lg slo)) with (lg shi) by lra.
  now apply pow10_lg.
Qed.

Lemma segment_antitone (r1 r2 : Z) :
  (lo <= r1)%Z -> (r1 <= r2)%Z ->
  segment lo hi slo shi r2 <= segment lo hi slo shi r1.
Proof.
  intros H1 H12. unfold segment.
  apply Rle_Rpower; [lra|].
  pose proof segment_width as Hw.
  assert (lg shi <= lg slo) as Hs by now apply lg_le.
  assert (lg (IZR r1) <= lg (IZR r2)) as Hr
    by (apply lg_le; [apply IZR_lt; lia | now apply IZR_le]).
  set (w := lg (IZR hi) - lg (IZR lo)) in *.
  assert ((lg (IZR r1) - lg (IZR lo)) / w <= (lg (IZR r2) - lg (IZR lo)) / w)
    as Hq.
  { unfold Rdiv. apply Rmult_le_compat_r; [|lra].
    left. now apply Rinv_0_lt_compat. }
  nra.
Qed.

Lemma segment_bounds (r : Z) :
  (lo <= r <= hi)%Z -> shi <= segment lo hi slo shi r <= slo.
Proof.
  intros [H1 H2]. split.
  - rewrite <- segment_hi at 1. now apply segment_antitone.
  - rewrite <- segment_lo at 2. apply segment_antitone; lia.
Qed.
End Segment.

Lemma ratio_le (a b c : R) : 0 < c -> a <= b -> a / c <= b / c.
Proof.
  intros Hc Hab. unfold Rdiv. apply Rmult_le_compat_r; [|assumption].
  left. now apply Rinv_0_lt_compat.
Qed.

Lemma inv_ratio_le (a b c : R) : 0 < c -> 0 < a -> a <= b -> c / b <= c / a.
Proof.
  intros Hc Ha Hab. unfold Rdiv. apply Rmult_le_compat_l; [lra|].
  apply Rinv_le_contravar; assumption.
Qed.

Section Tails.
Variables (k : Z) (s : R).
Hypothesis k_pos : (0 < k)%Z.
Hypothesis s_pos : 0 < s.

Lemma tail_worse_pos (r : Z) : 0 < tail_worse k s r.
Proof.
  unfold tail_worse. apply Rdiv_lt_0_compat; [assumption | apply Rpower_pos].
Qed.

Lemma tail_worse_antitone (r1 r2 : Z) :
  (0 < r1)%Z -> (r1 <= r2)%Z -> tail_worse k s r2 <= tail_worse k s r1.
Proof.
  intros H1 H12. unfold tail_worse.
  apply IZR_lt in k_pos, H1. apply IZR_le in H12.
  apply inv_ratio_le; [assumption | apply Rpower_pos |].
  apply Rle_Rpower_l; [lra|].
  split; [now apply Rdiv_lt_0_compat | now apply ratio_le].
Qed.

Lemma tail_worse_le (r : Z) : (k <= r)%Z -> tail_worse k s r <= s.
Proof.
  intros Hr. unfold tail_worse.
  apply IZR_lt in k_pos. apply IZR_le in Hr.
  assert (1 <= Rpower (IZR r / IZR k) 0.8) as Hp.
  { apply Rpower_ge_1; [|lra].
    replace 1 with (IZR k / IZR k) by (field; lra). now apply ratio_le. }
  replace s with (s / 1) at 2 by lra.
  apply inv_ratio_le; lra.
Qed.

Lemma tail_better_antitone (r1 r2 : Z) :
  (0 < r1)%Z -> (r1 <= r2)%Z -> tail_better k s r2 <= tail_better k s r1.
Proof.
  intros H1 H12. unfold tail_better.
  apply IZR_lt in k_pos, H1. apply IZR_le in H12.
  apply Rmult_le_compat_l; [lra|].
  apply Rle_Rpower_l; [lra|].
  split; [apply Rdiv_lt_0_compat; lra | apply inv_ratio_le; lra].
Qed.

Lemma tail_better_ge (r : Z) : (0 < r <= k)%Z -> s <= tail_better k s r.
Proof.
  intros [H0 Hr]. unfold tail_better.
  apply IZR_lt in k_pos, H0. apply IZR_le in Hr.
  assert (1 <= Rpower (IZR k / IZR r) 0.7) as Hp.
  { apply Rpower_ge_1; [|lra].
    replace 1 with (IZR r / IZR r) by (field; lra). now apply ratio_le. }
  nra.
Qed.
End Tails.
End CurveFacts.

(** ** Calibrated tables *)

Section Calibrated.
Import Py PyFloat BSRCalculator.
Local Open Scope R_scope.

Lemma descends_above (t : table) : forall k s,
  descends k s t -> Forall (fun p => (k < fst p)%Z) t.
Proof.
  induction t as [|[k' s'] t IH]; intros k s H; constructor.
  - simpl in *. tauto.
  - destruct H as (Hk & _ & _ & H). apply IH in H.
    eapply Forall_impl; [|exact H]. simpl. intros; lia.
Qed.

Lemma sorted_chain (t : table) : forall k s,
  descends k s t ->
  sorted (fun x : Z => x) (k :: keys t) = k :: keys t.
Proof.
  induction t as [|[k' s'] t IH]; intros k s H; [reflexivity|].
  destruct H as (Hk & _ & _ & H).
  change (sorted (fun x : Z => x) (k :: keys ((k', s') :: t)))
    with (insert (fun x : Z => x) k
            (sorted (fun x : Z => x) (k' :: keys t))).
  rewrite (IH _ _ H). simpl.
  destruct (Z.ltb_spec k' k); [lia | reflexivity].
Qed.

Lemma getitem_above (t : table) (k : Z) :
  Forall (fun p => (k < fst p)%Z) t -> getitem Z.eqb t k = None.
Proof.
  induction 1 as [|[k' s'] t Hk _ IH]; [reflexivity|].
  simpl in *. destruct (Z.eqb_spec k k'); [lia | exact IH].
Qed.

Lemma getitem_chain (t : table) : forall k s k' s',
  descends k s t -> In (k', s') ((k, s) :: t) ->
  getitem Z.eqb ((k, s) :: t) k' = Some s'.
Proof.
  induction t as [|[k1 s1] t IH]; intros k s k' s' H Hin.
  - destruct Hin as [[= <- <-] | []]. simpl. now rewrite Z.eqb_refl.
  - destruct Hin as [[= <- <-] | Hin].
    + simpl. now rewrite Z.eqb_refl.
    + pose proof (descends_above _ _ _ H) as Habove.
      destruct H as (Hk & _ & _ & H).
      assert (k < k')%Z as Hlt.
      { rewrite Forall_forall in Habove. apply (Habove _ Hin). }
      change (getitem Z.eqb ((k, s) :: (k1, s1) :: t) k')
        with (if (k' =? k)%Z then Some s
              else getitem Z.eqb ((k1, s1) :: t) k').
      destruct (Z.eqb_spec k' k); [lia|].
      now apply IH.
Qed.

Lemma last_chain (t : table) : forall k s,
  last (k :: keys t) = Some (fst (chain_last k s t)).
Proof.
  induction t as [|[k' s'] t IH]; intros k s; [reflexivity|].
  change (last (k :: keys ((k', s') :: t))) with (last (k' :: keys t)).
  apply IH.
Qed.

Lemma chain_last_in (t : table) : forall k s,
  In (chain_last k s t) ((k, s) :: t).
Proof.
  induction t as [|[k' s'] t IH]; intros k s; [now left|].
  right. apply IH.
Qed.

Lemma chain_last_bounds (t : table) : forall k s,
  descends k s t ->
  (k <= fst (chain_last k s t))%Z /\ snd (chain_last k s t) <= s.
Proof.
  induction t as [|[k' s'] t IH]; intros k s H; simpl.
  - split; [lia | lra].
  - destruct H as (Hk & Hs & _ & H). destruct (IH _ _ H). split; [lia | lra].
Qed.

Lemma chain_last_floor (t : table) : forall k s,
  0.001 <= s -> descends k s t -> 0.001 <= snd (chain_last k s t).
Proof.
  induction t as [|[k' s'] t IH]; intros k s Hs H; simpl; [assumption|].
  destruct H as (_ & _ & Hs' & H). now apply IH.
Qed.
End Calibrated.

(** ** [_interpolate_sales] computes the curve of a calibrated table *)

Section Interpolation.
Import Py PyFloat BSRCalculator.
Local Open Scope R_scope.

Lemma log10_pos (x : R) : 0 < x -> log10 x = Some (lg x).
Proof. intros Hx. unfold log10. destruct Rlt_dec; [reflexivity | lra]. Qed.

Lemma truediv_nonzero (x y : R) : y <> 0 -> truediv x y = Some (x / y).
Proof.
  intros Hy. unfold truediv. destruct Req_dec_T; [contradiction | reflexivity].
Qed.

Lemma log_interpolate_segment (T : table) (r lo hi : Z) (slo shi : R) :
  getitem Z.eqb T lo = Some slo -> getitem Z.eqb T hi = Some shi ->
  (0 < lo)%Z -> (lo < hi)%Z -> (lo <= r)%Z ->
  0.001 <= slo -> 0.001 <= shi ->
  log_interpolate r lo hi T = Some (segment lo hi slo shi r).
Proof.
  intros Hlo Hhi H0 Hlt Hr Hslo Hshi.
  unfold log_interpolate. rewrite Hlo, Hhi. cbn [bind].
  rewrite !log10_pos by (apply IZR_lt; lia). cbn [bind].
  rewrite truediv_nonzero
    by (pose proof (segment_width lo hi H0 Hlt); lra).
  cbn [bind].
  rewrite !Rmax_left by lra.
  rewrite !log10_pos by lra. reflexivity.
Qed.

Lemma find_bracket_chain (T : table) (r : Z) (t : table) : forall k s,
  agrees T ((k, s) :: t) -> (0 < k)%Z -> 0.001 <= s -> descends k s t ->
  (k <= r)%Z ->
  find_bracket r T (k :: keys t) = Some (chain_value r k s t).
Proof.
  induction t as [|[k' s'] t IH]; intros k s Hag Hk Hs Hd Hr;
    [reflexivity|].
  destruct Hd as (Hlt & _ & Hs' & Hd).
  change (find_bracket r T (k :: keys ((k', s') :: t)))
    with (if ((k <=? r) && (r <=? k'))%Z
          then log_interpolate r k k' T
          else find_bracket r T (k' :: keys t)).
  cbn [chain_value].
  destruct ((k <=? r) && (r <=? k'))%Z eqn:Hin.
  - apply log_interpolate_segment; try assumption.
    + apply Hag. now left.
    + apply Hag. right. now left.
  - apply IH; try assumption; try lia.
    intros k1 s1 H1. apply Hag. now right.
Qed.

(** Along a chain the value stays between the last and the first sales
    figure, and never increases with the rank. *)
Lemma chain_value_bounds (t : table) : forall k s k' s' r,
  (0 < k)%Z -> descends k s ((k', s') :: t) ->
  (k <= r <= fst (chain_last k' s' t))%Z ->
  snd (chain_last k' s' t) <= chain_value r k s ((k', s') :: t) <= s.
Proof.
  induction t as [|[k2 s2] t IH]; intros k s k' s' r Hk Hd Hr.
  - destruct Hd as (Hlt & Hs & Hf & _). simpl in Hr |- *.
    destruct (Z.leb_spec k r); [|lia].
    destruct (Z.leb_spec r k'); [|lia]. simpl.
    apply segment_bounds; try assumption; try lra; lia.
  - destruct Hd as (Hlt & Hs & Hf & Hd).
    pose proof (chain_last_bounds ((k2, s2) :: t) k' s' Hd) as [Hkl Hsl].
    change (chain_last k' s' ((k2, s2) :: t)) with (chain_last k2 s2 t) in *.
    change (chain_value r k s ((k', s') :: (k2, s2) :: t))
      with (if ((k <=? r) && (r <=? k'))%Z then segment k k' s s' r
            else chain_value r k' s' ((k2, s2) :: t)).
    destruct ((k <=? r) && (r <=? k'))%Z eqn:Hin.
    + apply andb_true_iff in Hin. destruct Hin as [H1 H2].
      apply Z.leb_le in H1, H2.
      pose proof (segment_bounds k k' s s' Hk Hlt ltac:(lra) Hs r
                    (conj H1 H2)).
      lra.
    + assert (k' < r)%Z as Hgt.
      { apply andb_false_iff in Hin. destruct Hin as [Hin | Hin];
          apply Z.leb_gt in Hin; lia. }
      pose proof (IH k' s' k2 s2 r ltac:(lia) Hd ltac:(lia)). lra.
Qed.

Lemma chain_value_antitone (t : table) : forall k s k' s' r1 r2,
  (0 < k)%Z -> descends k s ((k', s') :: t) ->
  (k <= r1)%Z -> (r1 <= r2)%Z -> (r2 <= fst (chain_last k' s' t))%Z ->
  chain_value r2 k s ((k', s') :: t) <= chain_value r1 k s ((k', s') :: t).
Proof.
  induction t as [|[k2 s2] t IH]; intros k s k' s' r1 r2 Hk Hd H1 H12 H2.
  - destruct Hd as (Hlt & Hs & Hf & _). simpl in H2 |- *.
    destruct (Z.leb_spec k r1); [|lia].
    destruct (Z.leb_spec r1 k'); [|lia].
    destruct (Z.leb_spec k r2); [|lia].
    destruct (Z.leb_spec r2 k'); [|lia]. simpl.
    apply segment_antitone; try assumption; lra.
  - pose proof Hd as (Hlt & Hs & Hf & Hd').
    change (chain_last k' s' ((k2, s2) :: t)) with (chain_last k2 s2 t) in *.
    destruct (Z_le_gt_dec r2 k') as [Hle | Hgt2].
    + (* both in the first bracket *)
      cbn [chain_value].
      destruct (Z.leb_spec k r1); [|lia].
      destruct (Z.leb_spec r1 k'); [|lia].
      destruct (Z.leb_spec k r2); [|lia].
      destruct (Z.leb_spec r2 k'); [|lia]. simpl.
      apply segment_antitone; try assumption; lra.
    + assert (chain_value r2 k s ((k', s') :: (k2, s2) :: t)
              = chain_value r2 k' s' ((k2, s2) :: t)) as ->.
      { cbn [chain_value].
        destruct (Z.leb_spec r2 k'); [lia|]. now rewrite andb_false_r. }
      destruct (Z_le_gt_dec r1 k') as [Hle1 | Hgt1].
      * (* r1 in the first bracket, r2 further along *)
        assert (chain_value r1 k s ((k', s') :: (k2, s2) :: t)
                = segment k k' s s' r1) as ->.
        { cbn [chain_value].
          destruct (Z.leb_spec k r1); [|lia].
          destruct (Z.leb_spec r1 k'); [|lia]. reflexivity. }
        pose proof (segment_bounds k k' s s' Hk Hlt ltac:(lra) Hs r1
                      (conj H1 Hle1)).
        pose proof (chain_value_bounds t k' s' k2 s2 r2 ltac:(lia) Hd'
                      ltac:(lia)).
        lra.
      * assert (chain_value r1 k s ((k', s') :: (k2, s2) :: t)
                = chain_value r1 k' s' ((k2, s2) :: t)) as ->.
        { cbn [chain_value].
          destruct (Z.leb_spec r1 k'); [lia|]. now rewrite andb_false_r. }
        apply IH; try assumption; lia.
Qed.
End Interpolation.

Section CurveOfTable.
Import Py PyFloat BSRCalculator.
Local Open Scope R_scope.

Variable T : table.
Hypothesis T_calibrated : calibrated T.

Lemma interpolate_sales_curve (r : Z) :
  (0 < r)%Z -> _interpolate_sales r T = Some (sales_curve T r).
Proof.
  intros Hr.
  destruct T as [|[k s] [|[k' s'] t]] eqn:ET; try contradiction.
  destruct T_calibrated as (Hk & Hs & Hd).
  set (t1 := (k', s') :: t) in *.
  unfold _interpolate_sales.
  destruct (Z.leb_spec r 0); [lia|].
  change (keys ((k, s) :: t1)) with (k :: keys t1).
  rewrite (sorted_chain t1 k s Hd).
  cbn [first hd_error bind sales_curve].
  pose proof (chain_last_bounds t1 k s Hd) as [Hkl Hsl].
  pose proof (chain_last_floor t1 k s Hs Hd) as Hfl.
  destruct (Z.ltb_spec r k).
  - rewrite (getitem_chain t1 k s k s Hd) by now left.
    cbn [bind]. unfold _extrapolate_high_performance.
    rewrite truediv_nonzero by (apply eq_IZR_contrapositive; lia). reflexivity.
  - rewrite (last_chain t1 k s). cbn [bind].
    destruct (Z.gtb_spec r (fst (chain_last k s t1))).
    + rewrite (getitem_chain t1 k s (fst (chain_last k s t1))
                 (snd (chain_last k s t1)) Hd)
        by (rewrite <- surjective_pairing; apply chain_last_in).
      cbn [bind]. unfold _extrapolate_low_performance.
      rewrite truediv_nonzero by (apply eq_IZR_contrapositive; lia). cbn [bind].
      rewrite truediv_nonzero; [reflexivity|].
      apply Rgt_not_eq, Rpower_pos.
    + apply find_bracket_chain; try assumption.
      intros k1 s1 Hin. now apply getitem_chain.
Qed.

Lemma sales_curve_antitone (r1 r2 : Z) :
  (0 < r1)%Z -> (r1 <= r2)%Z -> sales_curve T r2 <= sales_curve T r1.
Proof.
  intros H1 H12.
  destruct T as [|[k s] [|[k' s'] t]] eqn:ET; try contradiction.
  destruct T_calibrated as (Hk & Hs & Hd).
  pose proof (chain_last_bounds _ k s Hd) as [Hkl Hsl].
  pose proof (chain_last_floor _ k s Hs Hd) as Hfl.
  pose proof Hd as (Hlt & Hs' & Hf' & Hd').
  cbn [sales_curve].
  change (chain_last k s ((k', s') :: t)) with (chain_last k' s' t) in *.
  set (kl := fst (chain_last k' s' t)) in *.
  set (sl := snd (chain_last k' s' t)) in *.
  assert (forall r, (k <= r <= kl)%Z ->
            sl <= chain_value r k s ((k', s') :: t) <= s) as Hmid
    by (intros r Hr; now apply chain_value_bounds).
  destruct (Z.ltb_spec r1 k); destruct (Z.ltb_spec r2 k); try lia.
  - apply tail_better_antitone; try assumption; lra.
  - pose proof (tail_better_ge k s Hk ltac:(lra) r1 ltac:(lia)) as Hb.
    destruct (Z.gtb_spec r2 kl).
    + pose proof (tail_worse_le kl sl ltac:(lia) ltac:(lra) r2 ltac:(lia)).
      lra.
    + pose proof (Hmid r2 ltac:(lia)). lra.
  - destruct (Z.gtb_spec r1 kl); destruct (Z.gtb_spec r2 kl); try lia.
    + apply tail_worse_antitone; try assumption; try lia; lra.
    + pose proof (tail_worse_le kl sl ltac:(lia) ltac:(lra) r2 ltac:(lia)).
      pose proof (Hmid r1 ltac:(lia)). lra.
    + apply chain_value_antitone; try assumption; lia.
Qed.

Lemma sales_curve_pos (r : Z) : (0 < r)%Z -> 0 < sales_curve T r.
Proof.
  intros Hr.
  destruct T as [|[k s] [|[k' s'] t]] eqn:ET; try contradiction.
  destruct T_calibrated as (Hk & Hs & Hd).
  pose proof (chain_last_bounds _ k s Hd) as [Hkl Hsl].
  pose proof (chain_last_floor _ k s Hs Hd) as Hfl.
  cbn [sales_curve].
  change (chain_last k s ((k', s') :: t)) with (chain_last k' s' t) in *.
  destruct (Z.ltb_spec r k).
  - unfold tail_better. apply Rmult_lt_0_compat; [lra | apply Rpower_pos].
  - destruct (Z.gtb_spec r (fst (chain_last k' s' t))).
    + apply tail_worse_pos. lra.
    + pose proof (chain_value_bounds t k s k' s' r Hk Hd ltac:(lia)). lra.
Qed.
(** On any calibrated table the interpolation returns, and what it returns
    never increases with the rank, whichever of the three regions the two
    ranks fall in. *)
Lemma interpolate_sales_monotone (r1 r2 : Z) :
  (0 < r1)%Z -> (r1 <= r2)%Z ->
  exists v1 v2,
    _interpolate_sales r1 T = Some v1 /\ _interpolate_sales r2 T = Some v2
    /\ v2 <= v1.
Proof.
  intros H1 H12.
  exists (sales_curve T r1), (sales_curve T r2).
  repeat split.
  - now apply interpolate_sales_curve.
  - apply interpolate_sales_curve. lia.
  - now apply sales_curve_antitone.
Qed.
End CurveOfTable.

(** ** The six tables of [conversion_tables] *)

Section Tables.
Import Py PyFloat BSRCalculator.
Local Open Scope R_scope.
Local Open Scope string_scope.

Lemma all_tables_calibrated : Forall calibrated all_tables.
Proof.
  repeat constructor; simpl; try lia; lra.
Qed.

Lemma marketplace_cases (m : string) :
  m = "amazon.com" \/ m = "amazon.co.uk"
  \/ ((m =? "amazon.com") = false /\ (m =? "amazon.co.uk") = false).
Proof.
  destruct (String.eqb_spec m "amazon.com"); [tauto|].
  destruct (String.eqb_spec m "amazon.co.uk"); tauto.
Qed.

Lemma book_type_cases (b : string) :
  b = "ebook" \/ b = "paperback" \/ b = "hardcover"
  \/ ((b =? "ebook") = false /\ (b =? "paperback") = false
      /\ (b =? "hardcover") = false).
Proof.
  destruct (String.eqb_spec b "ebook"); [tauto|].
  destruct (String.eqb_spec b "paperback"); [tauto|].
  destruct (String.eqb_spec b "hardcover"); tauto.
Qed.

Ltac split_requests book_type marketplace :=
  destruct (marketplace_cases marketplace) as [-> | [-> | [?M1 ?M2]]];
  destruct (book_type_cases book_type) as [-> | [-> | [-> | (?B1 & ?B2 & ?B3)]]];
  unfold select_table, get, fallback_book_type, fallback_marketplace;
  cbn;
  repeat match goal with
         | H : (_ =? _) = false |- _ => rewrite !H; cbn
         end.

Lemma select_table_cases (book_type marketplace : string) :
  exists T, select_table book_type marketplace = Some T /\ In T all_tables.
Proof.
  split_requests book_type marketplace;
    eexists; (split; [reflexivity|]); simpl; tauto.
Qed.

Lemma select_table_calibrated (book_type marketplace : string) :
  exists T, select_table book_type marketplace = Some T /\ calibrated T.
Proof.
  destruct (select_table_cases book_type marketplace) as (T & HT & Hin).
  exists T. split; [assumption|].
  pose proof all_tables_calibrated as H. rewrite Forall_forall in H. auto.
Qed.

Lemma select_table_fallback (book_type marketplace : string) :
  select_table book_type marketplace
  = select_table (fallback_book_type book_type marketplace)
      (fallback_marketplace marketplace).
Proof.
  split_requests book_type marketplace; reflexivity.
Qed.

Lemma select_table_unknown_marketplace (book_type marketplace : string) :
  known_marketplace marketplace = false ->
  select_table book_type marketplace = select_table book_type "amazon.com".
Proof.
  unfold known_marketplace. intros H.
  destruct (marketplace_cases marketplace) as [-> | [-> | [M1 M2]]];
    try discriminate H.
  unfold select_table, get. cbn. now rewrite M1, M2.
Qed.

Lemma select_table_unknown_book_type (book_type marketplace : string) :
  known_book_type book_type marketplace = false ->
  select_table book_type marketplace = select_table "ebook" marketplace.
Proof.
  unfold known_book_type, fallback_marketplace, get. intros H.
  destruct (marketplace_cases marketplace) as [-> | [-> | [M1 M2]]];
    destruct (book_type_cases book_type)
      as [-> | [-> | [-> | (B1 & B2 & B3)]]];
    cbn in H; rewrite ?M1, ?M2 in H; cbn in H; try discriminate H;
    unfold select_table, get; cbn; rewrite ?M1, ?M2; cbn;
    now rewrite ?B1, ?B2, ?B3.
Qed.

Lemma select_table_known (book_type marketplace : string) :
  known_marketplace marketplace = true ->
  known_book_type book_type marketplace = true ->
  exists tables T,
    getitem String.eqb conversion_tables marketplace = Some tables
    /\ getitem String.eqb tables book_type = Some T
    /\ select_table book_type marketplace = Some T.
Proof.
  unfold known_marketplace, known_book_type, fallback_marketplace, get.
  intros Hm Hb.
  destruct (marketplace_cases marketplace) as [-> | [-> | [M1 M2]]];
    [| | cbn in Hm; rewrite M1, M2 in Hm; discriminate Hm];
    (destruct (book_type_cases book_type)
       as [-> | [-> | [-> | (B1 & B2 & B3)]]];
     [| | | cbn in Hb; rewrite B1, B2, B3 in Hb; discriminate Hb]);
    do 2 eexists; (split; [reflexivity|]); split; reflexivity.
Qed.

Lemma estimates_of_same_table (r : Z) (b1 m1 b2 m2 : string) :
  select_table b1 m1 = select_table b2 m2 ->
  calculate_sales_estimates r b1 m1 = calculate_sales_estimates r b2 m2.
Proof.
  intros H. unfold calculate_sales_estimates, calculate_sales_estimates_try.
  now rewrite H.
Qed.

Lemma estimates_of_curve (T : table) (r : Z) (book_type marketplace : string) :
  select_table book_type marketplace = Some T -> calibrated T -> (0 < r)%Z ->
  calculate_sales_estimates r book_type marketplace
  = (round2 (sales_curve T r), round2 (sales_curve T r * 30)).
Proof.
  intros HT Hc Hr.
  unfold calculate_sales_estimates, calculate_sales_estimates_try.
  rewrite HT. cbn [bind].
  rewrite (interpolate_sales_curve T Hc r Hr). reflexivity.
Qed.
End Tables.

(** ** Anchors *)

Section Anchors.
Import Py PyFloat BSRCalculator.
Local Open Scope R_scope.

Lemma chain_last_max (t : table) : forall k s k1 s1,
  descends k s t -> In (k1, s1) ((k, s) :: t) ->
  (k1 <= fst (chain_last k s t))%Z.
Proof.
  induction t as [|[k' s'] t IH]; intros k s k1 s1 Hd Hin.
  - destruct Hin as [[= <- <-] | []]. simpl. lia.
  - pose proof (chain_last_bounds _ k s Hd) as [Hkl _].
    destruct Hin as [[= <- <-] | Hin]; [assumption|].
    destruct Hd as (_ & _ & _ & Hd). simpl. now apply (IH k' s' k1 s1).
Qed.

Lemma chain_value_anchor (t : table) : forall k s k' s' k1 s1,
  (0 < k)%Z -> 0.001 <= s -> descends k s ((k', s') :: t) ->
  In (k1, s1) ((k, s) :: (k', s') :: t) ->
  chain_value k1 k s ((k', s') :: t) = s1.
Proof.
  induction t as [|[k2 s2] t IH]; intros k s k' s' k1 s1 Hk Hs Hd Hin;
    pose proof Hd as (Hlt & Hs' & Hf & Hd');
    cbn [chain_value].
  - destruct Hin as [[= <- <-] | [[= <- <-] | []]].
    + destruct (Z.leb_spec k k); [|lia]. destruct (Z.leb_spec k k'); [|lia].
      simpl. apply segment_lo; try assumption; lra.
    + destruct (Z.leb_spec k k'); [|lia]. destruct (Z.leb_spec k' k'); [|lia].
      simpl. apply segment_hi; try assumption; lra.
  - destruct Hin as [[= <- <-] | [[= <- <-] | Hin]].
    + destruct (Z.leb_spec k k); [|lia]. destruct (Z.leb_spec k k'); [|lia].
      simpl. apply segment_lo; try assumption; lra.
    + destruct (Z.leb_spec k k'); [|lia]. destruct (Z.leb_spec k' k'); [|lia].
      simpl. apply segment_hi; try assumption; lra.
    + pose proof (descends_above _ _ _ Hd') as Habove.
      rewrite Forall_forall in Habove. specialize (Habove _ Hin).
      simpl in Habove.
      destruct (Z.leb_spec k1 k'); [lia|]. rewrite andb_false_r.
      apply IH; try assumption; try lia. now right.
Qed.

Lemma sales_curve_anchor (T : table) (k1 : Z) (s1 : R) :
  calibrated T -> In (k1, s1) T -> sales_curve T k1 = s1.
Proof.
  intros Hc Hin.
  destruct T as [|[k s] [|[k' s'] t]]; try contradiction.
  destruct Hc as (Hk & Hs & Hd).
  pose proof (chain_last_max _ k s k1 s1 Hd Hin) as Hmax.
  assert (k <= k1)%Z as Hmin.
  { destruct Hin as [[= <- <-] | Hin]; [lia|].
    pose proof (descends_above _ _ _ Hd) as Habove.
    rewrite Forall_forall in Habove. specialize (Habove _ Hin).
    simpl in Habove. lia. }
  cbn [sales_curve].
  destruct (Z.ltb_spec k1 k); [lia|].
  destruct (Z.gtb_spec k1 (fst (chain_last k s ((k', s') :: t)))); [lia|].
  now apply chain_value_anchor.
Qed.

Lemma anchor_positive (T : table) (k1 : Z) (s1 : R) :
  calibrated T -> In (k1, s1) T -> (0 < k1)%Z.
Proof.
  intros Hc Hin.
  destruct T as [|[k s] [|[k' s'] t]]; try contradiction.
  destruct Hc as (Hk & Hs & Hd).
  destruct Hin as [[= <- <-] | Hin]; [lia|].
  pose proof (descends_above _ _ _ Hd) as Habove.
  rewrite Forall_forall in Habove. specialize (Habove _ Hin).
  simpl in Habove. lia.
Qed.

Lemma anchor_estimates (T : table) (k1 : Z) (s1 : R)
    (book_type marketplace : string) :
  select_table book_type marketplace = Some T -> In (k1, s1) T ->
  _interpolate_sales k1 T = Some s1
  /\ calculate_sales_estimates k1 book_type marketplace
     = (round2 s1, round2 (s1 * 30)).
Proof.
  intros HT Hin.
  assert (calibrated T) as Hc.
  { destruct (select_table_calibrated book_type marketplace) as (T' & HT' & Hc).
    congruence. }
  pose proof (anchor_positive T k1 s1 Hc Hin) as Hpos.
  split.
  - rewrite (interpolate_sales_curve T Hc k1 Hpos).
    now rewrite (sales_curve_anchor T k1 s1 Hc Hin).
  - rewrite (estimates_of_curve T k1 book_type marketplace HT Hc Hpos).
    now rewrite (sales_curve_anchor T k1 s1 Hc Hin).
Qed.
End Anchors.

(** ** The sales estimate *)

Section Estimate.
Import Py PyFloat BSRCalculator.
Local Open Scope R_scope.
Local Open Scope string_scope.

Lemma estimates_try_returns (r : Z) (book_type marketplace : string) :
  exists T d,
    select_table book_type marketplace = Some T
    /\ _interpolate_sales r T = Some d
    /\ calculate_sales_estimates_try r book_type marketplace
       = Some (round2 d, round2 (d * 30)).
Proof.
  destruct (select_table_calibrated book_type marketplace) as (T & HT & Hc).
  assert (exists d, _interpolate_sales r T = Some d) as [d Hd].
  { destruct (Z_lt_le_dec 0 r) as [Hr | Hr].
    - eexists. now apply interpolate_sales_curve.
    - exists 0. unfold _interpolate_sales.
      destruct (Z.leb_spec r 0); [reflexivity | lia]. }
  exists T, d. repeat split; try assumption.
  unfold calculate_sales_estimates_try. rewrite HT. cbn [bind].
  rewrite Hd. reflexivity.
Qed.

(** C1.  For ranks [0 < r1 < r2] and one format and market, the daily
    estimate at [r1] is at least the one at [r2]: the estimate never
    increases with the rank, across the tail before the first anchor,
    the log-log brackets and the tail beyond the last anchor of every
    calibration table. *)
Theorem estimate_daily_monotone (book_type marketplace : string) (r1 r2 : Z) :
  (0 < r1)%Z -> (r1 < r2)%Z ->
  fst (calculate_sales_estimates r2 book_type marketplace)
  <= fst (calculate_sales_estimates r1 book_type marketplace).
Proof.
  intros H1 H12.
  destruct (select_table_calibrated book_type marketplace) as (T & HT & Hc).
  rewrite !(estimates_of_curve T _ book_type marketplace HT Hc) by lia.
  cbn [fst]. apply round2_le. apply sales_curve_antitone; try assumption; lia.
Qed.

Lemma estimate_daily_monotone_witness :
  (0 < 9)%Z /\ (9 < 5000000)%Z
  /\ fst (calculate_sales_estimates 5000000 "paperback" "amazon.co.uk")
     <= fst (calculate_sales_estimates 9 "paperback" "amazon.co.uk").
Proof.
  split; [lia|]. split; [lia|].
  apply (estimate_daily_monotone "paperback" "amazon.co.uk" 9 5000000); lia.
Defined.

(** C3, as the spec states it, fails: at rank 1000000 of the UK
    paperback table the returned monthly value is not thirty times the
    returned daily value, the two having been rounded separately. *)
Lemma monthly_is_not_thirty_times_daily :
  snd (calculate_sales_estimates 1000000 "paperback" "amazon.co.uk")
  <> fst (calculate_sales_estimates 1000000 "paperback" "amazon.co.uk") * 30.
Proof.
  destruct (anchor_estimates uk_paperback 1000000 0.015
              "paperback" "amazon.co.uk" eq_refl) as [_ ->].
  { simpl. tauto. }
  cbn [fst snd].
  rewrite (round2_cents_eq (0.015 * 30) 45) by lra.
  destruct (round2_is_cents 0.015) as [k Hk].
  intros H.
  assert (IZR (2 * k) = IZR 3) as E by (rewrite mult_IZR; lra).
  apply eq_IZR in E. lia.
Qed.

(** C3, amended.  The returned daily value is the interpolated value [d]
    rounded to two decimals and the returned monthly value is [d * 30]
    rounded to two decimals; the monthly value is within 0.155 of thirty
    times the daily one. *)
Theorem monthly_is_rounded_thirty_times_unrounded_daily
    (r : Z) (book_type marketplace : string) :
  exists T d,
    select_table book_type marketplace = Some T
    /\ _interpolate_sales r T = Some d
    /\ calculate_sales_estimates r book_type marketplace
       = (round2 d, round2 (d * 30))
    /\ Rabs (snd (calculate_sales_estimates r book_type marketplace)
             - fst (calculate_sales_estimates r book_type marketplace) * 30)
       <= 0.155.
Proof.
  destruct (estimates_try_returns r book_type marketplace)
    as (T & d & HT & Hd & Htry).
  exists T, d. unfold calculate_sales_estimates. rewrite Htry.
  repeat split; try assumption. cbn [fst snd].
  pose proof (round2_near d). pose proof (round2_near (d * 30)).
  apply Rabs_le. lra.
Qed.

(** C4, as the spec states it, fails: the last anchor of the UK hardcover
    table holds 0.0075, and the daily estimate at that rank is a multiple
    of 0.01. *)
Lemma anchor_value_is_not_returned :
  getitem Z.eqb uk_hardcover 1000000%Z = Some 0.0075
  /\ fst (calculate_sales_estimates 1000000 "hardcover" "amazon.co.uk")
     <> 0.0075.
Proof.
  split; [reflexivity|].
  destruct (anchor_estimates uk_hardcover 1000000 0.0075
              "hardcover" "amazon.co.uk" eq_refl) as [_ ->].
  { simpl. tauto. }
  cbn [fst].
  destruct (round2_is_cents 0.0075) as [k Hk].
  intros H.
  assert (IZR (4 * k) = IZR 3) as E by (rewrite mult_IZR; lra).
  apply eq_IZR in E. lia.
Qed.

(** C4, amended.  At an anchor [(r, s)] of the selected table the daily
    estimate is a whole number of cents at most half a cent away from
    [s], and the monthly estimate a whole number of cents at most half a
    cent away from [s * 30]: the table value rounded to a nearest cent,
    either neighbour when it lies half-way between two.  When [s] has at
    most two decimals the estimate is [(s, s * 30)] exactly. *)
Theorem anchor_estimate_is_rounded_table_value
    (book_type marketplace : string) (T : table) (r : Z) (s : R) :
  select_table book_type marketplace = Some T -> In (r, s) T ->
  (exists daily_cents monthly_cents : Z,
     calculate_sales_estimates r book_type marketplace
     = (IZR daily_cents / 100, IZR monthly_cents / 100)
     /\ Rabs (IZR daily_cents - s * 100) <= 1 / 2
     /\ Rabs (IZR monthly_cents - s * 30 * 100) <= 1 / 2)
  /\ (forall k : Z, s * 100 = IZR k ->
      calculate_sales_estimates r book_type marketplace = (s, s * 30)).
Proof.
  intros HT Hin.
  destruct (anchor_estimates T r s book_type marketplace HT Hin) as [_ H2].
  split.
  - exists (round_half_even (s * 100)), (round_half_even (s * 30 * 100)).
    split; [exact H2|].
    pose proof (round_half_even_near (s * 100)).
    pose proof (round_half_even_near (s * 30 * 100)).
    split; apply Rabs_le; lra.
  - intros k Hk. rewrite H2.
    rewrite (round2_cents_eq s k Hk).
    rewrite (round2_cents_eq (s * 30) (k * 30)); [reflexivity|].
    rewrite mult_IZR. lra.
Qed.

Lemma anchor_estimate_is_rounded_table_value_witness :
  select_table "ebook" "amazon.com" = Some com_ebook
  /\ In (10%Z, 1500) com_ebook
  /\ calculate_sales_estimates 10 "ebook" "amazon.com" = (1500, 45000).
Proof.
  split; [reflexivity|].
  assert (In (10%Z, 1500) com_ebook) as Hin by (simpl; tauto).
  split; [exact Hin|].
  destruct (anchor_estimate_is_rounded_table_value
              "ebook" "amazon.com" com_ebook 10 1500 eq_refl Hin)
    as (_ & H).
  rewrite (H 150000%Z) by lra. f_equal. lra.
Defined.

(** C7, as the spec states it, fails: an unknown format keeps the
    requested market, and an unknown market keeps the requested format;
    neither request is answered from the ebook table of amazon.com. *)
Lemma fallback_is_not_always_the_default_table :
  existsb (String.eqb "audiobook") ["ebook"; "paperback"; "hardcover"] = false
  /\ calculate_sales_estimates 1 "audiobook" "amazon.co.uk" = (1500, 45000)
  /\ existsb (String.eqb "amazon.de") (keys conversion_tables) = false
  /\ calculate_sales_estimates 1 "paperback" "amazon.de" = (2000, 60000)
  /\ calculate_sales_estimates 1 "ebook" "amazon.com" = (5000, 150000)
  /\ calculate_sales_estimates 1 "audiobook" "amazon.co.uk"
     <> calculate_sales_estimates 1 "ebook" "amazon.com".
Proof.
  assert (calculate_sales_estimates 1 "audiobook" "amazon.co.uk"
          = (1500, 45000)) as E1.
  { destruct (anchor_estimates uk_ebook 1 1500
                "audiobook" "amazon.co.uk" eq_refl) as [_ ->].
    { simpl. tauto. }
    rewrite (round2_cents_eq 1500 150000) by lra.
    rewrite (round2_cents_eq (1500 * 30) 4500000) by lra.
    f_equal. lra. }
  assert (calculate_sales_estimates 1 "paperback" "amazon.de"
          = (2000, 60000)) as E2.
  { destruct (anchor_estimates com_paperback 1 2000
                "paperback" "amazon.de" eq_refl) as [_ ->].
    { simpl. tauto. }
    rewrite (round2_cents_eq 2000 200000) by lra.
    rewrite (round2_cents_eq (2000 * 30) 6000000) by lra.
    f_equal. lra. }
  assert (calculate_sales_estimates 1 "ebook" "amazon.com"
          = (5000, 150000)) as E3.
  { destruct (anchor_estimates com_ebook 1 5000
                "ebook" "amazon.com" eq_refl) as [_ ->].
    { simpl. tauto. }
    rewrite (round2_cents_eq 5000 500000) by lra.
    rewrite (round2_cents_eq (5000 * 30) 15000000) by lra.
    f_equal. lra. }
  repeat split; try reflexivity; try assumption.
  rewrite E1, E3. intros [= H _]. lra.
Qed.

(** C7, amended.  The method never raises, and the table is chosen level
    by level.  A marketplace that is no key of the tables is answered as
    amazon.com is for the same book type; a book type that is no key of
    the tables of the marketplace so selected is answered as ebook is
    for the same marketplace; when both are unknown the answer is that
    of ebook on amazon.com; and a known book type of a known marketplace
    is answered from its own table.  In every case the answer is the one
    of the resolved pair. *)
Theorem estimate_falls_back_per_level
    (r : Z) (book_type marketplace : string) :
  (known_marketplace marketplace = false ->
   calculate_sales_estimates r book_type marketplace
   = calculate_sales_estimates r book_type "amazon.com")
  /\ (known_book_type book_type marketplace = false ->
      calculate_sales_estimates r book_type marketplace
      = calculate_sales_estimates r "ebook" marketplace)
  /\ (known_marketplace marketplace = false ->
      known_book_type book_type marketplace = false ->
      calculate_sales_estimates r book_type marketplace
      = calculate_sales_estimates r "ebook" "amazon.com")
  /\ (known_marketplace marketplace = true ->
      known_book_type book_type marketplace = true ->
      exists tables T,
        getitem String.eqb conversion_tables marketplace = Some tables
        /\ getitem String.eqb tables book_type = Some T
        /\ select_table book_type marketplace = Some T)
  /\ calculate_sales_estimates r book_type marketplace
     = calculate_sales_estimates r (fallback_book_type book_type marketplace)
         (fallback_marketplace marketplace)
  /\ exists result,
       calculate_sales_estimates_try r book_type marketplace = Some result.
Proof.
  split; [|split; [|split; [|split; [|split]]]].
  - intros Hm. apply estimates_of_same_table.
    now apply select_table_unknown_marketplace.
  - intros Hb. apply estimates_of_same_table.
    now apply select_table_unknown_book_type.
  - intros Hm Hb. apply estimates_of_same_table.
    rewrite (select_table_unknown_book_type _ _ Hb).
    now apply select_table_unknown_marketplace.
  - apply select_table_known.
  - apply estimates_of_same_table. apply select_table_fallback.
  - destruct (estimates_try_returns r book_type marketplace)
      as (T & d & _ & _ & H).
    eauto.
Qed.

Lemma estimate_falls_back_per_level_witness :
  known_marketplace "amazon.de" = false
  /\ known_book_type "audiobook" "amazon.de" = false
  /\ calculate_sales_estimates 7 "audiobook" "amazon.de"
     = calculate_sales_estimates 7 "ebook" "amazon.com"
  /\ known_marketplace "amazon.co.uk" = true
  /\ known_book_type "hardcover" "amazon.co.uk" = true
  /\ exists tables T,
       getitem String.eqb conversion_tables "amazon.co.uk" = Some tables
       /\ getitem String.eqb tables "hardcover" = Some T
       /\ select_table "hardcover" "amazon.co.uk" = Some T.
Proof.
  split; [reflexivity|]. split; [reflexivity|].
  destruct (estimate_falls_back_per_level 7 "audiobook" "amazon.de")
    as (_ & _ & Hboth & _).
  split; [exact (Hboth eq_refl eq_refl)|].
  split; [reflexivity|]. split; [reflexivity|].
  destruct (estimate_falls_back_per_level 7 "hardcover" "amazon.co.uk")
    as (_ & _ & _ & Hknown & _).
  exact (Hknown eq_refl eq_refl).
Defined.
End Estimate.

(** ** The inverse query *)

Section Inverse.
Import Py PyFloat BSRCalculator.
Local Open Scope R_scope.
Local Open Scope string_scope.

Lemma bisect_step (T : table) (target : R) (low high : Z) :
  (1 < high - low)%Z ->
  bisect T target low high
  = match _interpolate_sales ((low + high) / 2) T with
    | None => None
    | Some estimated_sales =>
        if gtb estimated_sales target
        then bisect T target ((low + high) / 2) high
        else bisect T target low ((low + high) / 2)
    end.
Proof.
  intros H. rewrite bisect_equation_1.
  destruct (Z_lt_dec 1 (high - low)); [reflexivity | contradiction].
Qed.

Lemma bisect_stop (T : table) (target : R) (low high : Z) :
  ~ (1 < high - low)%Z -> bisect T target low high = Some low.
Proof.
  intros H. rewrite bisect_equation_1.
  destruct (Z_lt_dec 1 (high - low)); [contradiction | reflexivity].
Qed.

(** The loop returns the rank at which the curve crosses the target:
    every rank of the interval up to it lies above the target, every
    later one does not. *)
Lemma bisect_crossing (T : table) (target : R) :
  calibrated T ->
  forall (n : nat) (low high : Z),
    Z.to_nat (high - low) = n -> (0 < low)%Z -> (low < high)%Z ->
    exists rank,
      bisect T target low high = Some rank
      /\ (low <= rank < high)%Z
      /\ (forall r, (low < r <= rank)%Z -> target < sales_curve T r)
      /\ (forall r, (rank < r < high)%Z -> sales_curve T r <= target).
Proof.
  intros Hc n. induction n as [n IH] using lt_wf_ind.
  intros low high Hn Hlow Hlt.
  destruct (Z_lt_dec 1 (high - low)) as [Hwide | Hnarrow].
  - rewrite bisect_step by assumption.
    set (mid := ((low + high) / 2)%Z).
    assert (low < mid < high)%Z as Hmid
      by (subst mid; Z.div_mod_to_equations; lia).
    rewrite (interpolate_sales_curve T Hc mid) by lia.
    unfold gtb. destruct (Rlt_dec target (sales_curve T mid)) as [Hgt | Hle].
    + destruct (IH (Z.to_nat (high - mid)) ltac:(lia) mid high eq_refl
                  ltac:(lia) ltac:(lia))
        as (rank & Hrank & Hrange & Habove & Hbelow).
      exists rank. repeat split; try assumption; try lia.
      intros r Hr. destruct (Z_le_gt_dec r mid) as [Hrm | Hrm].
      * pose proof (sales_curve_antitone T Hc r mid ltac:(lia) Hrm). lra.
      * apply Habove. lia.
    + destruct (IH (Z.to_nat (mid - low)) ltac:(lia) low mid eq_refl
                  ltac:(lia) ltac:(lia))
        as (rank & Hrank & Hrange & Habove & Hbelow).
      exists rank. repeat split; try assumption; try lia.
      intros r Hr. destruct (Z_lt_ge_dec r mid) as [Hrm | Hrm].
      * apply Hbelow. lia.
      * pose proof (sales_curve_antitone T Hc mid r ltac:(lia) ltac:(lia)).
        lra.
  - rewrite bisect_stop by assumption.
    exists low. repeat split; try lia; intros r Hr; lia.
Qed.

Lemma target_sales_crossing (target : R) (book_type marketplace : string) :
  exists T rank,
    select_table book_type marketplace = Some T /\ calibrated T
    /\ get_bsr_for_target_sales target book_type marketplace = Some rank
    /\ (1 <= rank <= 9999999)%Z
    /\ (forall r, (1 < r <= rank)%Z -> target < sales_curve T r)
    /\ (forall r, (rank < r < 10000000)%Z -> sales_curve T r <= target).
Proof.
  destruct (select_table_calibrated book_type marketplace) as (T & HT & Hc).
  destruct (bisect_crossing T target Hc (Z.to_nat (10000000 - 1)) 1 10000000
              eq_refl ltac:(lia) ltac:(lia))
    as (rank & Hrank & Hrange & Habove & Hbelow).
  exists T, rank. unfold get_bsr_for_target_sales. rewrite HT. cbn [bind].
  repeat split; try assumption; lia.
Qed.
End Inverse.

(** ** Numeric bounds on logarithms *)

Section LogBounds.
Local Open Scope R_scope.

Lemma ln_quotient (x y : R) : 0 < x -> 0 < y -> ln x - ln y = ln (x / y).
Proof.
  intros Hx Hy. unfold Rdiv.
  rewrite ln_mult by (try apply Rinv_0_lt_compat; assumption).
  rewrite ln_Rinv by assumption. lra.
Qed.

Lemma ln_upper (x : R) : 0 < x -> ln x <= x - 1.
Proof.
  intros Hx. pose proof (exp_ineq1_le (ln x)) as H.
  rewrite exp_ln in H by assumption. lra.
Qed.

Lemma ln_lower (x : R) : 0 < x -> 1 - / x <= ln x.
Proof.
  intros Hx.
  pose proof (ln_upper (/ x) (Rinv_0_lt_compat _ Hx)) as H.
  rewrite ln_Rinv in H by assumption. lra.
Qed.

Lemma ln_5_ge_1 : 1 <= ln 5.
Proof.
  rewrite <- (ln_exp 1). left. apply ln_increasing; [apply exp_pos|].
  pose proof exp_le_3. lra.
Qed.

Lemma lg_quotient (x y : R) : 0 < x -> 0 < y -> lg x - lg y = lg (x / y).
Proof.
  intros Hx Hy. unfold lg. rewrite <- ln_quotient by assumption.
  pose proof ln10_pos. field. lra.
Qed.
End LogBounds.

Section InverseClaims.
Import Py PyFloat BSRCalculator.
Local Open Scope R_scope.
Local Open Scope string_scope.

Lemma com_ebook_calibrated : calibrated com_ebook.
Proof. simpl. repeat split; try lia; lra. Qed.

Lemma com_ebook_at_11 : sales_curve com_ebook 11 <= 1499.
Proof.
  change (sales_curve com_ebook 11) with (segment 10 100 1500 300 11).
  unfold segment.
  rewrite <- (pow10_lg 1499) at 1 by lra.
  apply Rle_Rpower; [lra|].
  replace (lg 300 - lg 1500) with (- (lg 1500 - lg 300)) by lra.
  rewrite !lg_quotient by lra.
  assert (lg 1500 - lg 1499 <= lg (11 / 10) / lg (100 / 10) * lg (1500 / 300));
    [|lra].
  rewrite lg_quotient by lra.
  replace (100 / 10) with 10 by lra.
  replace (1500 / 300) with 5 by lra.
  unfold lg. pose proof ln10_pos as HL.
  replace (ln 10 / ln 10) with 1 by (field; lra).
  pose proof (ln_upper (1500 / 1499) ltac:(lra)) as H1.
  pose proof (ln_lower (11 / 10) ltac:(lra)) as H2.
  replace (/ (11 / 10)) with (10 / 11) in H2 by (field; lra).
  pose proof ln_5_ge_1 as H3.
  pose proof (ln_upper 10 ltac:(lra)) as H10.
  assert (ln (1500 / 1499) * ln 10 <= ln (11 / 10) * ln 5) as H by nra.
  replace (ln (1500 / 1499) / ln 10)
    with (ln (1500 / 1499) * ln 10 / (ln 10 * ln 10)) by (field; lra).
  replace (ln (11 / 10) / ln 10 / 1 * (ln 5 / ln 10))
    with (ln (11 / 10) * ln 5 / (ln 10 * ln 10)) by (field; lra).
  apply ratio_le; [nra | assumption].
Qed.

Lemma target_rank_on_com_ebook (target : R) :
  exists rank,
    get_bsr_for_target_sales target "ebook" "amazon.com" = Some rank
    /\ (1 <= rank <= 9999999)%Z
    /\ (forall r, (1 < r <= rank)%Z -> target < sales_curve com_ebook r)
    /\ (forall r, (rank < r < 10000000)%Z ->
        sales_curve com_ebook r <= target).
Proof.
  destruct (target_sales_crossing target "ebook" "amazon.com")
    as (T & rank & HT & _ & H).
  assert (select_table "ebook" "amazon.com" = Some com_ebook) as HT'
    by reflexivity.
  assert (T = com_ebook) as -> by congruence.
  now exists rank.
Qed.

(** C2, as the spec states it, fails.  For a target of 1499 sales a day
    on the amazon.com ebook table the method returns rank 10, whose
    estimate, 1500, exceeds the target; the smallest rank whose estimate
    does not exceed it is 11.  For a target of 0, which the estimate of no
    rank goes down to, it returns 9999999, which is neither end of the
    interval from 1 to 10000000. *)
Lemma target_rank_is_not_first_at_or_below :
  get_bsr_for_target_sales 1499 "ebook" "amazon.com" = Some 10%Z
  /\ _interpolate_sales 10 com_ebook = Some 1500
  /\ (exists v, _interpolate_sales 11 com_ebook = Some v /\ v <= 1499)
  /\ get_bsr_for_target_sales 0 "ebook" "amazon.com" = Some 9999999%Z.
Proof.
  pose proof com_ebook_calibrated as Hc.
  assert (sales_curve com_ebook 10 = 1500) as H10
    by (apply sales_curve_anchor; [assumption | simpl; tauto]).
  repeat split.
  - destruct (target_rank_on_com_ebook 1499)
      as (rank & -> & Hrange & Habove & Hbelow).
    f_equal.
    destruct (Z_lt_ge_dec rank 10) as [Hlt | Hge].
    + pose proof (Hbelow 10%Z ltac:(lia)). lra.
    + destruct (Z_le_gt_dec rank 10) as [Hle | Hgt]; [lia|].
      pose proof (Habove 11%Z ltac:(lia)). pose proof com_ebook_at_11. lra.
  - rewrite (interpolate_sales_curve com_ebook Hc 10) by lia. now rewrite H10.
  - exists (sales_curve com_ebook 11). split.
    + apply (interpolate_sales_curve com_ebook Hc 11). lia.
    + apply com_ebook_at_11.
  - destruct (target_rank_on_com_ebook 0)
      as (rank & -> & Hrange & Habove & Hbelow).
    f_equal.
    destruct (Z_lt_ge_dec rank 9999999) as [Hlt | Hge]; [|lia].
    pose proof (Hbelow 9999999%Z ltac:(lia)).
    pose proof (sales_curve_pos com_ebook Hc 9999999 ltac:(lia)). lra.
Qed.

(** C2, amended.  For every target and every format and market the
    method returns, without raising, an integer rank between 1 and
    9999999 at which the interpolated sales cross the target: every rank
    above 1 and up to the returned one has interpolated sales that exceed
    the target, and every rank after it and below 10000000 has
    interpolated sales that do not.  The returned rank is thus one less
    than the smallest rank above 1 whose sales do not exceed the target;
    it is 1 when no rank above 1 exceeds the target and 9999999 when
    every rank below 10000000 does. *)
Theorem target_rank_is_last_above
    (target : R) (book_type marketplace : string) :
  exists T rank,
    select_table book_type marketplace = Some T
    /\ get_bsr_for_target_sales target book_type marketplace = Some rank
    /\ (1 <= rank <= 9999999)%Z
    /\ (forall r, (1 < r <= rank)%Z ->
        exists v, _interpolate_sales r T = Some v /\ target < v)
    /\ (forall r, (rank < r < 10000000)%Z ->
        exists v, _interpolate_sales r T = Some v /\ v <= target).
Proof.
  destruct (target_sales_crossing target book_type marketplace)
    as (T & rank & HT & Hc & Hrank & Hrange & Habove & Hbelow).
  exists T, rank. repeat split; try assumption; try lia.
  - intros r Hr. exists (sales_curve T r). split.
    + apply interpolate_sales_curve; [assumption | lia].
    + now apply Habove.
  - intros r Hr. exists (sales_curve T r). split.
    + apply interpolate_sales_curve; [assumption | lia].
    + now apply Hbelow.
Qed.
End InverseClaims.

(** ** Trend analysis *)

Section Trend.
Import Py PyFloat BSRCalculator.
Local Open Scope R_scope.
Local Open Scope string_scope.

Lemma length_insert {A : Type} (key : A -> Z) (x : A) (xs : list A) :
  List.length (insert key x xs) = S (List.length xs).
Proof.
  induction xs as [|y ys IH]; [reflexivity|].
  simpl. destruct (key y <? key x)%Z; simpl; [now rewrite IH | reflexivity].
Qed.

(** A list already in non-decreasing key order is left as it is: entries
    with equal keys keep the order in which they were supplied. *)
Lemma sorted_of_ordered {A : Type} (key : A -> Z) (xs : list A) :
  StronglySorted (fun x y => (key x <= key y)%Z) xs -> sorted key xs = xs.
Proof.
  induction 1 as [|x xs Hs IH Hx]; [reflexivity|].
  cbn [sorted fold_right]. fold (sorted key xs). rewrite IH.
  destruct xs as [|y ys]; [reflexivity|]. cbn [insert].
  inversion Hx as [|? ? Hxy _]; subst.
  destruct (Z.ltb_spec (key y) (key x)); [lia | reflexivity].
Qed.

Lemma equal_timestamps_keep_supply_order (r1 r2 t : Z) :
  sorted timestamp [entry r1 t; entry r2 t] = [entry r1 t; entry r2 t].
Proof.
  apply sorted_of_ordered. repeat constructor; simpl; lia.
Qed.

Lemma length_sorted {A : Type} (key : A -> Z) (xs : list A) :
  List.length (sorted key xs) = List.length xs.
Proof.
  induction xs as [|x xs IH]; [reflexivity|].
  simpl. now rewrite length_insert, IH.
Qed.

Lemma length_daily_sales (h : list bsr_record) :
  List.length (daily_sales_by_time h) = List.length h.
Proof. unfold daily_sales_by_time. now rewrite length_map, length_sorted. Qed.

Lemma last_cons {A : Type} (x : A) (xs : list A) :
  exists y, last (x :: xs) = Some y.
Proof.
  revert x. induction xs as [|x' xs IH]; intros x; [now exists x|].
  destruct (IH x') as [y Hy]. exists y. exact Hy.
Qed.


Lemma compare_gtb (x y : R) :
  compare_directly x y (if gtb y x then "improving"
                        else if ltb y x then "declining" else "stable").
Proof.
  unfold compare_directly, gtb, ltb.
  repeat destruct Rlt_dec; repeat split; intros; try reflexivity; lra.
Qed.

Lemma nonempty_reads (xs : list R) :
  xs <> [] ->
  exists x y best worst,
    first xs = Some x /\ last xs = Some y
    /\ max_list xs = Some best /\ min_list xs = Some worst.
Proof.
  destruct xs as [|x xs]; [contradiction|]. intros _.
  destruct (last_cons x xs) as [y Hy].
  exists x, y. do 2 eexists. repeat split; try eassumption; reflexivity.
Qed.

(** What the method returns on a history of three entries or more. *)
Lemma trend_of_three_or_more (h : list bsr_record) :
  (3 <= List.length h)%nat ->
  exists x a,
    first (daily_sales_by_time h) = Some x
    /\ get_sales_trend_analysis h = Some (Analysis a)
    /\ let sales := daily_sales_by_time h in
       let older :=
         if (3 <? List.length sales)%nat
         then sum (but_last3 sales) / INR (List.length (but_last3 sales))
         else x in
       let change :=
         if gtb older 0
         then (sum (last3 sales) / 3 - older) / older * 100 else 0 in
       change_percent a = change
       /\ trend a = (if gtb change 10 then "improving"
                     else if ltb change (-10) then "declining"
                     else "stable").
Proof.
  intros Hlen.
  pose proof (length_daily_sales h) as Hs.
  unfold get_sales_trend_analysis.
  destruct (Nat.ltb_spec (List.length h) 2); [lia|].
  fold (daily_sales_by_time h).
  set (sales := daily_sales_by_time h) in *.
  destruct (nonempty_reads sales) as (x & y & best & worst & Hx & Hy & Hb & Hw).
  { intros E. rewrite E in Hs. simpl in Hs. lia. }
  exists x. rewrite Hx, Hy, Hb, Hw. cbn [bind].
  destruct (Nat.leb_spec 3 (List.length sales)); [|lia].
  assert ((if (3 <? List.length sales)%nat
           then truediv (sum (but_last3 sales))
                  (INR (List.length (but_last3 sales)))
           else Some x)
          = Some (if (3 <? List.length sales)%nat
                  then sum (but_last3 sales)
                       / INR (List.length (but_last3 sales))
                  else x)) as ->.
  { destruct (Nat.ltb_spec 3 (List.length sales)); [|reflexivity].
    apply truediv_nonzero. apply not_0_INR.
    unfold but_last3. rewrite length_firstn. lia. }
  cbn [bind fst snd].
  rewrite truediv_nonzero by (apply not_0_INR; lia).
  cbn [bind].
  eexists. split; [reflexivity|]. split; [reflexivity|].
  cbn [change_percent trend]. split; reflexivity.
Qed.

(** What the method returns on a history of exactly two entries. *)
Lemma trend_of_two (h : list bsr_record) :
  List.length h = 2%nat ->
  exists x y a,
    daily_sales_by_time h = [x; y]
    /\ get_sales_trend_analysis h = Some (Analysis a)
    /\ change_percent a = 0
    /\ trend a = (if gtb y x then "improving"
                  else if ltb y x then "declining" else "stable").
Proof.
  intros Hlen.
  pose proof (length_daily_sales h) as Hs.
  unfold get_sales_trend_analysis.
  destruct (Nat.ltb_spec (List.length h) 2); [lia|].
  fold (daily_sales_by_time h).
  destruct (daily_sales_by_time h) as [|x [|y [|z sales']]] eqn:E;
    simpl in Hs; try lia.
  exists x, y. cbn [first hd_error last bind List.length Nat.leb fst snd].
  rewrite truediv_nonzero by (apply not_0_INR; lia).
  cbn [bind max_list min_list].
  eexists. split; [reflexivity|]. split; [reflexivity|].
  cbn [change_percent trend]. split; reflexivity.
Qed.
End Trend.

Section TrendClaims.
Import Py PyFloat BSRCalculator.
Local Open Scope R_scope.
Local Open Scope string_scope.

Lemma lg_10 : lg 10 = 1.
Proof. unfold lg. pose proof ln10_pos. field. lra. Qed.

Lemma lg_mult (x y : R) : 0 < x -> 0 < y -> lg (x * y) = lg x + lg y.
Proof.
  intros Hx Hy. unfold lg. rewrite ln_mult by assumption.
  pose proof ln10_pos. field. lra.
Qed.

Lemma lg_upper (x : R) : 0 < x -> lg x <= (x - 1) / ln 10.
Proof.
  intros Hx. unfold lg. apply ratio_le; [apply ln10_pos | now apply ln_upper].
Qed.

Lemma lg_lower (x : R) : 0 < x -> (1 - / x) / ln 10 <= lg x.
Proof.
  intros Hx. unfold lg. apply ratio_le; [apply ln10_pos | now apply ln_lower].
Qed.

Lemma lg_5_bounds : 1 / 2 <= lg 5 <= 1.
Proof.
  pose proof (lg_mult 5 5 ltac:(lra) ltac:(lra)) as H.
  pose proof (lg_le 10 (5 * 5) ltac:(lra) ltac:(lra)) as H1.
  pose proof (lg_le 5 10 ltac:(lra) ltac:(lra)) as H2.
  rewrite lg_10 in *. lra.
Qed.

Lemma daily_on_com_ebook (r t : Z) :
  (0 < r)%Z -> record_sales (entry r t) = round2 (sales_curve com_ebook r).
Proof.
  intros Hr. unfold record_sales. cbn [rank book_type marketplace entry].
  now rewrite (estimates_of_curve com_ebook r "ebook" "amazon.com" eq_refl
                 com_ebook_calibrated Hr).
Qed.


Lemma com_ebook_at_99 : 300.01 <= sales_curve com_ebook 99 <= 330.
Proof.
  change (sales_curve com_ebook 99) with (segment 10 100 1500 300 99).
  unfold segment.
  pose proof ln10_pos as HL.
  assert (0 < / ln 10) as HiL by now apply Rinv_0_lt_compat.
  pose proof lg_5_bounds as H5.
  pose proof (lg_mult 300 5 ltac:(lra) ltac:(lra)) as H1500.
  replace (300 * 5) with 1500 in H1500 by lra.
  rewrite !lg_quotient by lra.
  replace (100 / 10) with 10 by lra. rewrite lg_10.
  pose proof (lg_quotient 10 (100 / 99) ltac:(lra) ltac:(lra)) as Hq.
  replace (10 / (100 / 99)) with (99 / 10) in Hq by (field; lra).
  rewrite lg_10 in Hq.
  pose proof (lg_mult 1500 (300 / 1500) ltac:(lra) ltac:(lra)) as H300.
  replace (1500 * (300 / 1500)) with 300 in H300 by lra.
  set (q := lg (100 / 99)) in *.
  assert (lg 1500 + lg (99 / 10) / 1 * lg (300 / 1500) = lg 300 + q * lg 5)
    as ->.
  { replace (lg (99 / 10)) with (1 - q) by lra.
    replace (lg (300 / 1500)) with (- lg 5) by lra.
    rewrite H1500. field. }
  pose proof (lg_le 1 (100 / 99) ltac:(lra) ltac:(lra)) as Hq0.
  rewrite lg_1 in Hq0. fold q in Hq0.
  split.
  - rewrite <- (pow10_lg 300.01) at 1 by lra.
    apply Rle_Rpower; [lra|].
    pose proof (lg_mult 300 (300.01 / 300) ltac:(lra) ltac:(lra)) as Hm.
    replace (300 * (300.01 / 300)) with 300.01 in Hm by lra.
    pose proof (lg_upper (300.01 / 300) ltac:(lra)) as Hu.
    pose proof (lg_lower (100 / 99) ltac:(lra)) as Hl. fold q in Hl.
    replace (/ (100 / 99)) with (99 / 100) in Hl by (field; lra).
    unfold Rdiv in Hu, Hl at 1. nra.
  - rewrite <- (pow10_lg 330) at 1 by lra.
    apply Rle_Rpower; [lra|].
    pose proof (lg_mult 300 (11 / 10) ltac:(lra) ltac:(lra)) as Hm.
    replace (300 * (11 / 10)) with 330 in Hm by lra.
    pose proof (lg_le (100 / 99) (11 / 10) ltac:(lra) ltac:(lra)) as Hq1.
    fold q in Hq1. nra.
Qed.


Lemma scaled_change_below (older x : R) :
  0 < older -> 100 * x <= 10 * older -> x / older * 100 <= 10.
Proof.
  intros Ho H.
  replace 10 with (10 * older / older) by (field; lra).
  replace (x / older * 100) with (100 * x / older) by (field; lra).
  now apply ratio_le.
Qed.





(** C6, as the spec states it, fails: rank 100 followed by rank 99 raises
    the estimated daily sales from 300 by less than ten percent, and the
    history is labelled [improving]; the two-entry branch applies no
    threshold. *)
Lemma small_rise_is_labelled_improving :
  exists x y a,
    daily_sales_by_time close_history = [x; y]
    /\ get_sales_trend_analysis close_history = Some (Analysis a)
    /\ trend a = "improving"
    /\ 0 < x /\ (y - x) / x * 100 <= 10.
Proof.
  destruct (trend_of_two close_history eq_refl)
    as (x & y & a & Hs & Ha & _ & Ht).
  exists x, y, a. split; [assumption|]. split; [assumption|].
  change (daily_sales_by_time close_history)
    with [record_sales (entry 100 1); record_sales (entry 99 2)] in Hs.
  injection Hs as <- <-.
  rewrite !daily_on_com_ebook in * by lia.
  pose proof com_ebook_calibrated as Hcal.
  rewrite (sales_curve_anchor com_ebook 100 300 Hcal) in * by (simpl; tauto).
  rewrite (round2_cents_eq 300 30000) in * by lra.
  pose proof com_ebook_at_99 as [Hlo Hhi].
  pose proof (round2_le _ _ Hlo) as Hd. pose proof (round2_le _ _ Hhi) as Hd'.
  rewrite (round2_cents_eq 300.01 30001) in Hd by lra.
  rewrite (round2_cents_eq 330 33000) in Hd' by lra.
  set (d := round2 (sales_curve com_ebook 99)) in *.
  split; [|split; [lra|]].
  - rewrite Ht. unfold gtb. destruct Rlt_dec; [reflexivity | lra].
  - apply scaled_change_below; lra.
Qed.

(** C6, amended.  On a history of exactly two entries the method
    compares the later estimated daily sales with the earlier one
    directly, without a threshold: [improving] when it is greater,
    [declining] when it is smaller, [stable] when the two are equal; the
    reported change is 0. *)
Theorem trend_of_two_entries (h : list bsr_record) :
  List.length h = 2%nat ->
  exists earlier later a,
    daily_sales_by_time h = [earlier; later]
    /\ get_sales_trend_analysis h = Some (Analysis a)
    /\ compare_directly earlier later (trend a)
    /\ change_percent a = 0.
Proof.
  intros Hlen.
  destruct (trend_of_two h Hlen) as (x & y & a & Hs & Ha & Hc & Ht).
  exists x, y, a.
  split; [assumption|]. split; [assumption|]. split; [|assumption].
  rewrite Ht. apply compare_gtb.
Qed.

Lemma trend_of_two_entries_witness :
  List.length close_history = 2%nat
  /\ exists a,
       get_sales_trend_analysis close_history = Some (Analysis a)
       /\ change_percent a = 0.
Proof.
  split; [reflexivity|].
  destruct (trend_of_two_entries close_history eq_refl)
    as (x & y & a & _ & Ha & _ & Hc).
  exists a. split; assumption.
Defined.
End TrendClaims.

(** ** Keyword volume and freshness *)

Section Keyword.
Import KeywordService.
Local Open Scope Z_scope.

Lemma fold_common_step (keyword : string) (words : list string) :
  forall x : float,
    fold_left (common_step keyword) words x
    = times_one_and_a_half
        (List.length
           (filter (fun word => contains word (lower keyword)) words)) x.
Proof.
  induction words as [|word words IH]; intros x; [reflexivity|].
  cbn [fold_left filter]. rewrite IH. unfold common_step.
  destruct (contains word (lower keyword)); reflexivity.
Qed.

(** C9, as the spec states it, fails: with one plain word and a jitter of
    769/1024 the four factors multiply to 750.9765625 and the method
    returns 750; with four plain words and a jitter of 1 it returns 399,
    the binary64 product being just below 400.  Both products are cut to
    an integer. *)
Lemma search_volume_is_truncated :
  (0.5 <=? 0.7509765625)%float = true
  /\ (0.7509765625 <=? 2.0)%float = true
  /\ _estimate_search_volume "x" 0.7509765625 = Some 750
  /\ spec_search_volume "x" 0.7509765625 = 750.9765625%float
  /\ _estimate_search_volume "a b c d" 1.0 = Some 399
  /\ (float_of_int 399 <? spec_search_volume "a b c d" 1.0)%float = true.
Proof. repeat split; vm_compute; reflexivity. Qed.

(** C9, amended.  The estimate is the product of 1000, the length factor
    and 1.5 for each term of the fixed set that occurs in the lowercased
    keyword (once per term), cut to an integer; that integer times the
    jitter, cut to an integer again; and the result floored at 10. *)
Theorem search_volume_truncates_twice (keyword : string) (jitter : float) :
  _estimate_search_volume keyword jitter
  = Py.bind
      (int_of_float
         (float_of_int 1000
          * length_factor (Z.of_nat (List.length (split keyword)))
          * times_one_and_a_half (List.length (common_terms_in keyword)) 1.0)
         %float)
      (fun volume =>
         Py.bind (int_of_float (float_of_int volume * jitter)%float)
           (fun volume' => Some (Z.max 10 volume')))
  /\ forall volume,
       _estimate_search_volume keyword jitter = Some volume -> 10 <= volume.
Proof.
  split.
  - unfold _estimate_search_volume, common_terms_in.
    now rewrite fold_common_step.
  - intros volume. unfold _estimate_search_volume.
    destruct int_of_float as [v|]; [cbn [Py.bind] | discriminate].
    destruct int_of_float as [v'|]; [cbn [Py.bind] | discriminate].
    intros [= <-]. lia.
Qed.

Lemma floor_div_lt (a b m : Z) : 0 < b -> (a / b < m <-> a < m * b).
Proof.
  intros Hb.
  pose proof (Z.div_mod a b ltac:(lia)) as Hdm.
  pose proof (Z.mod_pos_bound a b Hb) as Hmod.
  split; intros H; nia.
Qed.

(** C8.  A record with a timestamp is fresh exactly when its age,
    counted in whole days, is below the window, which is to say when the
    age is less than [max_age_days] days; under the default window of 7
    a record one day old is fresh and a record eight days old is not. *)
Theorem fresh_iff_age_below_window
    (utcnow last_updated : datetime) (max_age_days : Z) :
  (_is_data_fresh utcnow (Some last_updated) max_age_days = true
   <-> (utcnow - last_updated) / us_per_day < max_age_days)
  /\ (_is_data_fresh utcnow (Some last_updated) max_age_days = true
      <-> utcnow - last_updated < max_age_days * us_per_day)
  /\ _is_data_fresh utcnow (Some (utcnow - 1 * us_per_day))
       default_max_age_days = true
  /\ _is_data_fresh utcnow (Some (utcnow - 8 * us_per_day))
       default_max_age_days = false.
Proof.
  assert (0 < us_per_day) as Hd by reflexivity.
  unfold _is_data_fresh, datetime_sub. cbn [days].
  repeat split.
  - apply Z.ltb_lt.
  - apply Z.ltb_lt.
  - intros H. apply Z.ltb_lt in H. now apply floor_div_lt.
  - intros H. apply Z.ltb_lt. now apply floor_div_lt.
  - replace (utcnow - (utcnow - 1 * us_per_day)) with (1 * us_per_day) by lia.
    rewrite Z.div_mul by lia. reflexivity.
  - replace (utcnow - (utcnow - 8 * us_per_day)) with (8 * us_per_day) by lia.
    rewrite Z.div_mul by lia. reflexivity.
Qed.

(** C10.  Whatever the window, a record without a timestamp is not
    fresh: the method returns [False] and does not raise. *)
Theorem missing_timestamp_is_stale (utcnow : datetime) (max_age_days : Z) :
  _is_data_fresh utcnow None max_age_days = false.
Proof. reflexivity. Qed.
End Keyword.

(** * Further properties of the code *)

(** ** Sign of the estimate *)

Section EstimateSign.
Import Py PyFloat BSRCalculator.
Local Open Scope R_scope.
Local Open Scope string_scope.

Lemma round2_zero : round2 0 = 0.
Proof. apply round2_cents_eq with (k := 0%Z). lra. Qed.

Lemma estimates_at_nonpositive (r : Z) (book_type marketplace : string) :
  (r <= 0)%Z -> calculate_sales_estimates r book_type marketplace = (0, 0).
Proof.
  intros Hr.
  destruct (select_table_calibrated book_type marketplace) as (T & HT & _).
  unfold calculate_sales_estimates, calculate_sales_estimates_try.
  rewrite HT. cbn [bind]. unfold _interpolate_sales.
  destruct (Z.leb_spec r 0); [|lia]. cbn [bind].
  replace (0 * 30) with 0 by lra. now rewrite round2_zero.
Qed.

(** A rank that is zero or negative is answered with [(0.0, 0.0)], for
    every book type and marketplace, known or not. *)
Theorem nonpositive_rank_estimates_zero
    (r : Z) (book_type marketplace : string) :
  (r <= 0)%Z -> calculate_sales_estimates r book_type marketplace = (0, 0).
Proof. apply estimates_at_nonpositive. Qed.

Lemma nonpositive_rank_estimates_zero_witness :
  (-5 <= 0)%Z /\ calculate_sales_estimates (-5) "ebook" "amazon.com" = (0, 0).
Proof.
  split; [lia|].
  apply (nonpositive_rank_estimates_zero (-5) "ebook" "amazon.com"). lia.
Defined.

(** For a positive rank of at most [10 ^ 300] the interpolation returns
    strictly positive sales, whatever the book type and marketplace: the
    tail beyond the last anchor never reaches zero.  The bound keeps the
    rank ratio [bsr / known_bsr] far inside the binary64 range; from about
    [2 * 10 ^ 314] the division itself raises [OverflowError], a path
    that is outside this embedding. *)
Theorem positive_rank_interpolates_positive
    (r : Z) (book_type marketplace : string) :
  (0 < r <= 10 ^ 300)%Z ->
  exists T v,
    select_table book_type marketplace = Some T
    /\ _interpolate_sales r T = Some v /\ 0 < v.
Proof.
  intros [Hr _].
  destruct (select_table_calibrated book_type marketplace) as (T & HT & Hc).
  exists T, (sales_curve T r). repeat split; try assumption.
  - now apply interpolate_sales_curve.
  - now apply sales_curve_pos.
Qed.

Lemma positive_rank_interpolates_positive_witness :
  (0 < 123456789 <= 10 ^ 300)%Z
  /\ exists T v,
       select_table "hardcover" "amazon.co.uk" = Some T
       /\ _interpolate_sales 123456789 T = Some v /\ 0 < v.
Proof.
  assert (0 < 123456789 <= 10 ^ 300)%Z as H.
  { split; [lia|]. apply Z.leb_le. vm_compute. reflexivity. }
  split; [exact H|].
  apply (positive_rank_interpolates_positive 123456789
           "hardcover" "amazon.co.uk" H).
Defined.

Lemma daily_estimate_nonneg (r : Z) (book_type marketplace : string) :
  0 <= fst (calculate_sales_estimates r book_type marketplace).
Proof.
  destruct (Z_lt_le_dec 0 r) as [Hr | Hr].
  - destruct (select_table_calibrated book_type marketplace) as (T & HT & Hc).
    rewrite (estimates_of_curve T r book_type marketplace HT Hc Hr).
    pose proof (sales_curve_pos T Hc r Hr).
    cbn [fst]. apply round2_nonneg; lra.
  - rewrite (estimates_at_nonpositive r book_type marketplace Hr).
    cbn [fst]. lra.
Qed.

(** Both components of every estimate are non-negative. *)
Theorem estimates_are_nonnegative (r : Z) (book_type marketplace : string) :
  0 <= fst (calculate_sales_estimates r book_type marketplace)
  /\ 0 <= snd (calculate_sales_estimates r book_type marketplace).
Proof.
  destruct (Z_lt_le_dec 0 r) as [Hr | Hr].
  - destruct (select_table_calibrated book_type marketplace) as (T & HT & Hc).
    rewrite (estimates_of_curve T r book_type marketplace HT Hc Hr).
    pose proof (sales_curve_pos T Hc r Hr).
    cbn [fst snd]. split; apply round2_nonneg; lra.
  - rewrite (estimates_at_nonpositive r book_type marketplace Hr).
    cbn [fst snd]. lra.
Qed.
End EstimateSign.

(** ** The fields of the trend analysis *)

Section TrendFields.
Import Py PyFloat BSRCalculator.
Local Open Scope R_scope.
Local Open Scope string_scope.

Lemma fold_max_spec (xs : list R) : forall m0,
  let m := fold_left (fun m y => if Rlt_dec m y then y else m) xs m0 in
  (m = m0 \/ In m xs) /\ m0 <= m /\ forall x, In x xs -> x <= m.
Proof.
  induction xs as [|x xs IH]; intros m0; cbn [fold_left].
  - repeat split; [now left | lra | intros x []].
  - destruct (Rlt_dec m0 x) as [Hlt | Hge].
    + destruct (IH x) as (Hin & Hle & Hall).
      repeat split.
      * right. destruct Hin as [-> | Hin]; [now left | now right].
      * lra.
      * intros y [<- | Hy]; [exact Hle | now apply Hall].
    + destruct (IH m0) as (Hin & Hle & Hall).
      repeat split.
      * destruct Hin as [-> | Hin]; [now left | right; now right].
      * exact Hle.
      * intros y [<- | Hy]; [lra | now apply Hall].
Qed.

Lemma fold_min_spec (xs : list R) : forall m0,
  let m := fold_left (fun m y => if Rlt_dec y m then y else m) xs m0 in
  (m = m0 \/ In m xs) /\ m <= m0 /\ forall x, In x xs -> m <= x.
Proof.
  induction xs as [|x xs IH]; intros m0; cbn [fold_left].
  - repeat split; [now left | lra | intros x []].
  - destruct (Rlt_dec x m0) as [Hlt | Hge].
    + destruct (IH x) as (Hin & Hle & Hall).
      repeat split.
      * right. destruct Hin as [-> | Hin]; [now left | now right].
      * lra.
      * intros y [<- | Hy]; [exact Hle | now apply Hall].
    + destruct (IH m0) as (Hin & Hle & Hall).
      repeat split.
      * destruct Hin as [-> | Hin]; [now left | right; now right].
      * exact Hle.
      * intros y [<- | Hy]; [lra | now apply Hall].
Qed.

Lemma max_list_spec (xs : list R) (best : R) :
  max_list xs = Some best ->
  In best xs /\ forall x, In x xs -> x <= best.
Proof.
  destruct xs as [|x xs]; [discriminate|]. intros [= <-].
  destruct (fold_max_spec xs x) as (Hin & Hle & Hall).
  split.
  - destruct Hin as [-> | Hin]; [now left | now right].
  - intros y [<- | Hy]; [exact Hle | now apply Hall].
Qed.

Lemma min_list_spec (xs : list R) (worst : R) :
  min_list xs = Some worst ->
  In worst xs /\ forall x, In x xs -> worst <= x.
Proof.
  destruct xs as [|x xs]; [discriminate|]. intros [= <-].
  destruct (fold_min_spec xs x) as (Hin & Hle & Hall).
  split.
  - destruct Hin as [-> | Hin]; [now left | now right].
  - intros y [<- | Hy]; [exact Hle | now apply Hall].
Qed.

Lemma last_in {A : Type} (xs : list A) (y : A) : last xs = Some y -> In y xs.
Proof.
  induction xs as [|x xs IH]; [discriminate|].
  destruct xs as [|x' xs'].
  - intros [= <-]. now left.
  - intros H. right. now apply IH.
Qed.

Lemma fold_sum_bounds (lo hi : R) (xs : list R) : forall a,
  (forall x, In x xs -> lo <= x <= hi) ->
  a + INR (List.length xs) * lo <= fold_left Rplus xs a
  <= a + INR (List.length xs) * hi.
Proof.
  induction xs as [|x xs IH]; intros a Hall.
  - simpl. lra.
  - cbn [fold_left]. change (List.length (x :: xs)) with (S (List.length xs)).
    rewrite S_INR.
    pose proof (Hall x ltac:(now left)).
    pose proof (IH (a + x) ltac:(intros y Hy; apply Hall; now right)). lra.
Qed.

(** The six fields returned for a history of two entries or more. *)
Lemma analysis_fields (h : list bsr_record) :
  (2 <= List.length h)%nat ->
  exists a current best worst,
    get_sales_trend_analysis h = Some (Analysis a)
    /\ last (daily_sales_by_time h) = Some current
    /\ max_list (daily_sales_by_time h) = Some best
    /\ min_list (daily_sales_by_time h) = Some worst
    /\ current_daily_sales a = current
    /\ average_daily_sales a = mean (daily_sales_by_time h)
    /\ best_daily_sales a = best
    /\ worst_daily_sales a = worst.
Proof.
  intros Hlen.
  pose proof (length_daily_sales h) as Hs.
  unfold get_sales_trend_analysis.
  destruct (Nat.ltb_spec (List.length h) 2); [lia|].
  fold (daily_sales_by_time h).
  set (sales := daily_sales_by_time h) in *.
  destruct (nonempty_reads sales) as (x & y & best & worst & Hx & Hy & Hb & Hw).
  { intros E. rewrite E in Hs. simpl in Hs. lia. }
  rewrite Hx, Hy, Hb, Hw. cbn [bind].
  match goal with
  | |- context [bind ?v _] =>
      assert (exists verdict, v = Some verdict) as [verdict ->]
  end.
  { destruct (3 <=? List.length sales)%nat; [|eauto].
    destruct (3 <? List.length sales)%nat eqn:E3; cbn [bind]; [|eauto].
    rewrite truediv_nonzero; [cbn [bind]; eauto|].
    apply not_0_INR. unfold but_last3. rewrite length_firstn.
    apply Nat.ltb_lt in E3. lia. }
  cbn [bind].
  rewrite truediv_nonzero by (apply not_0_INR; lia). cbn [bind].
  eexists. exists y, best, worst.
  split; [reflexivity|]. repeat split; reflexivity.
Qed.
End TrendFields.

Section TrendInvariants.
Import Py PyFloat BSRCalculator.
Local Open Scope R_scope.
Local Open Scope string_scope.

Lemma mean_between (lo hi : R) (xs : list R) :
  xs <> [] -> (forall x, In x xs -> lo <= x) -> (forall x, In x xs -> x <= hi) ->
  lo <= mean xs <= hi.
Proof.
  intros Hne Hlo Hhi. unfold mean, sum.
  pose proof (fold_sum_bounds lo hi xs 0
                ltac:(intros x Hx; split; [now apply Hlo | now apply Hhi]))
    as [H1 H2].
  assert (0 < INR (List.length xs)) as Hn.
  { apply lt_0_INR. destruct xs; [contradiction | simpl; lia]. }
  set (n := INR (List.length xs)) in *.
  set (total := fold_left Rplus xs 0) in *.
  split.
  - replace lo with (n * lo / n) by (field; lra). apply ratio_le; lra.
  - replace hi with (n * hi / n) by (field; lra). apply ratio_le; lra.
Qed.

(** The analysis answers [insufficient_data] exactly for histories of
    fewer than two entries; every longer history gets the six-field
    analysis, without raising. *)
Theorem insufficient_data_iff_under_two_entries (h : list bsr_record) :
  (get_sales_trend_analysis h = Some InsufficientData
   <-> (List.length h < 2)%nat)
  /\ ((exists a, get_sales_trend_analysis h = Some (Analysis a))
      <-> (2 <= List.length h)%nat).
Proof.
  destruct (Nat.lt_ge_cases (List.length h) 2) as [Hlt | Hge].
  - assert (get_sales_trend_analysis h = Some InsufficientData) as E.
    { unfold get_sales_trend_analysis.
      destruct (Nat.ltb_spec (List.length h) 2); [reflexivity | lia]. }
    rewrite E. split; split; try tauto; try lia.
    intros [a Ha]. discriminate.
  - destruct (analysis_fields h Hge) as (a & _ & _ & _ & Ha & _).
    rewrite Ha. split; split; try lia; try discriminate; eauto.
Qed.

Lemma daily_sales_nonneg (h : list bsr_record) (d : R) :
  In d (daily_sales_by_time h) -> 0 <= d.
Proof.
  unfold daily_sales_by_time. rewrite in_map_iff.
  intros (record & <- & _). apply daily_estimate_nonneg.
Qed.

(** In every analysis the current daily sales lie between the worst and
    the best ones, best and worst are the estimates of entries of the
    history, and neither the worst nor the average is negative. *)
Theorem trend_fields_are_ordered (h : list bsr_record) :
  (2 <= List.length h)%nat ->
  exists a,
    get_sales_trend_analysis h = Some (Analysis a)
    /\ worst_daily_sales a <= current_daily_sales a <= best_daily_sales a
    /\ In (best_daily_sales a) (daily_sales_by_time h)
    /\ In (worst_daily_sales a) (daily_sales_by_time h)
    /\ 0 <= worst_daily_sales a
    /\ 0 <= average_daily_sales a.
Proof.
  intros Hlen.
  destruct (analysis_fields h Hlen)
    as (a & y & best & worst & Ha & Hy & Hb & Hw & Ec & Ea & Eb & Ew).
  exists a. split; [assumption|]. rewrite Ec, Ea, Eb, Ew.
  destruct (max_list_spec _ _ Hb) as [Hbin Hbmax].
  destruct (min_list_spec _ _ Hw) as [Hwin Hwmin].
  pose proof (last_in _ _ Hy) as Hyin.
  pose proof (length_daily_sales h) as Hs.
  assert (daily_sales_by_time h <> []) as Hne
    by (intros E; rewrite E in Hs; simpl in Hs; lia).
  split; [split; [now apply Hwmin | now apply Hbmax]|].
  split; [assumption|]. split; [assumption|].
  split; [now apply (daily_sales_nonneg h)|].
  apply (mean_between 0 best _ Hne (daily_sales_nonneg h) Hbmax).
Qed.

Lemma trend_fields_are_ordered_witness :
  (2 <= List.length improving_history)%nat
  /\ exists a,
       get_sales_trend_analysis improving_history = Some (Analysis a)
       /\ worst_daily_sales a <= current_daily_sales a <= best_daily_sales a
       /\ 0 <= average_daily_sales a.
Proof.
  assert (2 <= List.length improving_history)%nat as H by (simpl; lia).
  split; [exact H|].
  destruct (trend_fields_are_ordered improving_history H)
    as (a & Ha & Hcur & _ & _ & _ & Havg).
  exists a. split; [assumption|]. split; assumption.
Defined.
End TrendInvariants.

(** ** The order in which a history is supplied *)


Section HistoryOrder.
Import Py PyFloat BSRCalculator.
Local Open Scope Z_scope.

Variables (A : Type) (key : A -> Z).

Lemma insert_insert (x y : A) (l : list A) :
  key x <> key y ->
  insert key x (insert key y l) = insert key y (insert key x l).
Proof.
  intros Hxy. induction l as [|z l IH]; cbn [insert].
  - destruct (Z.ltb_spec (key y) (key x)), (Z.ltb_spec (key x) (key y));
      try lia; reflexivity.
  - destruct (Z.ltb_spec (key z) (key y)), (Z.ltb_spec (key z) (key x));
      cbn [insert];
      repeat match goal with
             | |- context [(?a <? ?b)] => destruct (Z.ltb_spec a b)
             end; try lia; try reflexivity.
    now rewrite IH.
Qed.

Lemma sorted_permutation (l l' : list A) :
  Permutation l l' -> NoDup (map key l) -> sorted key l = sorted key l'.
Proof.
  induction 1 as [| x l l' Hp IH | x y l | l l' l'' Hp1 IH1 Hp2 IH2];
    intros Hnd.
  - reflexivity.
  - cbn [sorted fold_right]. fold (sorted key l) (sorted key l').
    inversion Hnd; subst. now rewrite IH.
  - cbn [sorted fold_right]. fold (sorted key l).
    apply insert_insert.
    inversion Hnd as [|? ? Hnotin _]; subst.
    intros E. apply Hnotin. rewrite E. now left.
  - rewrite IH1 by assumption. apply IH2.
    eapply Permutation_NoDup; [|exact Hnd]. now apply Permutation_map.
Qed.
End HistoryOrder.

Section HistoryOrderTheorem.
Import Py PyFloat BSRCalculator.
Local Open Scope R_scope.
Local Open Scope string_scope.

(** Entries that share a timestamp are compared in the order in which
    they were supplied: rank 100 followed by rank 10, both at time 1, is
    a rise from 300 to 1500 sales a day and is labelled [improving]. *)
Lemma equal_timestamps_compare_in_supply_order :
  exists a,
    get_sales_trend_analysis [entry 100 1; entry 10 1] = Some (Analysis a)
    /\ trend a = "improving" /\ current_daily_sales a = 1500.
Proof.
  set (h := [entry 100 1; entry 10 1]).
  assert (daily_sales_by_time h = [300; 1500]) as Hsales.
  { unfold daily_sales_by_time, h.
    rewrite equal_timestamps_keep_supply_order. cbn [map].
    rewrite !daily_on_com_ebook by lia.
    pose proof com_ebook_calibrated as Hcal.
    rewrite (sales_curve_anchor com_ebook 100 300 Hcal) by (simpl; tauto).
    rewrite (sales_curve_anchor com_ebook 10 1500 Hcal) by (simpl; tauto).
    rewrite (round2_cents_eq 300 30000) by lra.
    rewrite (round2_cents_eq 1500 150000) by lra.
    reflexivity. }
  destruct (trend_of_two h eq_refl) as (x & y & a & Hs & Ha & _ & Ht).
  destruct (analysis_fields h ltac:(simpl; lia))
    as (a' & current & _ & _ & Ha' & Hlast & _ & _ & Ec & _).
  assert (a' = a) as -> by congruence.
  rewrite Hsales in Hs, Hlast. injection Hs as <- <-.
  cbn [last] in Hlast. injection Hlast as <-.
  exists a. split; [assumption|]. split; [|assumption].
  rewrite Ht. unfold gtb. destruct Rlt_dec; [reflexivity | lra].
Qed.

(** The analysis sorts by timestamp before anything else: two histories
    with the same entries in different orders get the same analysis,
    provided no two entries share a timestamp. *)
Theorem trend_ignores_supply_order (h h' : list bsr_record) :
  Permutation h h' -> NoDup (map timestamp h) ->
  get_sales_trend_analysis h' = get_sales_trend_analysis h.
Proof.
  intros Hp Hnd. unfold get_sales_trend_analysis.
  rewrite <- (Permutation_length Hp).
  now rewrite <- (sorted_permutation _ timestamp h h' Hp Hnd).
Qed.

Lemma trend_ignores_supply_order_witness :
  Permutation close_history (rev close_history)
  /\ NoDup (map timestamp close_history)
  /\ get_sales_trend_analysis (rev close_history)
     = get_sales_trend_analysis close_history.
Proof.
  assert (Permutation close_history (rev close_history)) as Hp
    by (simpl; apply perm_swap).
  assert (NoDup (map timestamp close_history)) as Hnd.
  { simpl. repeat constructor; simpl; intuition discriminate. }
  split; [exact Hp|]. split; [exact Hnd|].
  apply (trend_ignores_supply_order close_history (rev close_history) Hp Hnd).
Defined.
End HistoryOrderTheorem.

(** ** The inverse query as a function of the target *)

Section InverseOrder.
Import Py PyFloat BSRCalculator.
Local Open Scope R_scope.
Local Open Scope string_scope.

(** A higher sales target is never answered with a larger rank. *)
Theorem higher_target_needs_no_larger_rank
    (target1 target2 : R) (book_type marketplace : string) :
  target1 <= target2 ->
  exists rank1 rank2,
    get_bsr_for_target_sales target1 book_type marketplace = Some rank1
    /\ get_bsr_for_target_sales target2 book_type marketplace = Some rank2
    /\ (rank2 <= rank1)%Z.
Proof.
  intros Hle.
  destruct (target_sales_crossing target1 book_type marketplace)
    as (T1 & k1 & HT1 & _ & Hk1 & Hr1 & Ha1 & Hb1).
  destruct (target_sales_crossing target2 book_type marketplace)
    as (T2 & k2 & HT2 & _ & Hk2 & Hr2 & Ha2 & Hb2).
  assert (T2 = T1) as -> by congruence.
  exists k1, k2. repeat split; try assumption.
  destruct (Z_le_gt_dec k2 k1) as [H | H]; [assumption|].
  pose proof (Ha2 k2 ltac:(lia)). pose proof (Hb1 k2 ltac:(lia)). lra.
Qed.

Lemma higher_target_needs_no_larger_rank_witness :
  2 <= 40
  /\ exists rank1 rank2,
       get_bsr_for_target_sales 2 "paperback" "amazon.com" = Some rank1
       /\ get_bsr_for_target_sales 40 "paperback" "amazon.com" = Some rank2
       /\ (rank2 <= rank1)%Z.
Proof.
  split; [lra|].
  apply (higher_target_needs_no_larger_rank 2 40 "paperback" "amazon.com").
  lra.
Defined.
End InverseOrder.

(** ** Strict decrease and the round trip through the inverse query *)

Section StrictCurve.
Import Py PyFloat BSRCalculator.
Local Open Scope R_scope.
Local Open Scope string_scope.

Lemma Rpower_gt_1 (x y : R) : 1 < x -> 0 < y -> 1 < Rpower x y.
Proof.
  intros Hx Hy. rewrite <- (Rpower_O x) by lra. now apply Rpower_lt.
Qed.

Lemma ratio_lt (a b c : R) : 0 < c -> a < b -> a / c < b / c.
Proof.
  intros Hc Hab. unfold Rdiv. apply Rmult_lt_compat_r; [|assumption].
  now apply Rinv_0_lt_compat.
Qed.

Lemma inv_ratio_lt (a b c : R) : 0 < c -> 0 < a -> a < b -> c / b < c / a.
Proof.
  intros Hc Ha Hab. unfold Rdiv. apply Rmult_lt_compat_l; [lra|].
  apply Rinv_lt_contravar; [nra | assumption].
Qed.

Lemma segment_strict (lo hi : Z) (slo shi : R) (r1 r2 : Z) :
  (0 < lo)%Z -> (lo < hi)%Z -> 0 < shi -> shi < slo ->
  (lo <= r1)%Z -> (r1 < r2)%Z ->
  segment lo hi slo shi r2 < segment lo hi slo shi r1.
Proof.
  intros Hlo Hlt Hshi Hs H1 H12. unfold segment.
  apply Rpower_lt; [lra|].
  pose proof (segment_width lo hi Hlo Hlt) as Hw.
  assert (lg shi < lg slo) as Hls by now apply lg_lt.
  assert (lg (IZR r1) < lg (IZR r2)) as Hr
    by (apply lg_lt; [apply IZR_lt; lia | now apply IZR_lt]).
  set (w := lg (IZR hi) - lg (IZR lo)) in *.
  assert ((lg (IZR r1) - lg (IZR lo)) / w < (lg (IZR r2) - lg (IZR lo)) / w)
    as Hq by (apply ratio_lt; lra).
  nra.
Qed.

Lemma tail_worse_strict (k : Z) (s : R) (r1 r2 : Z) :
  (0 < k)%Z -> 0 < s -> (0 < r1)%Z -> (r1 < r2)%Z ->
  tail_worse k s r2 < tail_worse k s r1.
Proof.
  intros Hk Hs H1 H12. unfold tail_worse.
  apply IZR_lt in Hk, H1, H12.
  apply inv_ratio_lt; [assumption | apply Rpower_pos |].
  apply Rlt_Rpower_l; [lra|].
  split; [now apply Rdiv_lt_0_compat | now apply ratio_lt].
Qed.

Lemma tail_worse_lt (k : Z) (s : R) (r : Z) :
  (0 < k)%Z -> 0 < s -> (k < r)%Z -> tail_worse k s r < s.
Proof.
  intros Hk Hs Hr. unfold tail_worse.
  apply IZR_lt in Hk, Hr.
  assert (1 < Rpower (IZR r / IZR k) 0.8) as Hp.
  { apply Rpower_gt_1; [|lra].
    replace 1 with (IZR k / IZR k) by (field; lra). now apply ratio_lt. }
  replace s with (s / 1) at 2 by lra.
  apply inv_ratio_lt; lra.
Qed.

Lemma tail_better_strict (k : Z) (s : R) (r1 r2 : Z) :
  (0 < k)%Z -> 0 < s -> (0 < r1)%Z -> (r1 < r2)%Z ->
  tail_better k s r2 < tail_better k s r1.
Proof.
  intros Hk Hs H1 H12. unfold tail_better.
  apply IZR_lt in Hk, H1, H12.
  apply Rmult_lt_compat_l; [lra|].
  apply Rlt_Rpower_l; [lra|].
  split; [apply Rdiv_lt_0_compat; lra | apply inv_ratio_lt; lra].
Qed.

Lemma tail_better_gt (k : Z) (s : R) (r : Z) :
  (0 < k)%Z -> 0 < s -> (0 < r < k)%Z -> s < tail_better k s r.
Proof.
  intros Hk Hs [H0 Hr]. unfold tail_better.
  apply IZR_lt in Hk, H0, Hr.
  assert (1 < Rpower (IZR k / IZR r) 0.7) as Hp.
  { apply Rpower_gt_1; [|lra].
    replace 1 with (IZR r / IZR r) by (field; lra). now apply ratio_lt. }
  nra.
Qed.

Lemma chain_value_head (t : table) (k : Z) (s : R) (k' : Z) (s' : R) :
  (0 < k)%Z -> 0.001 <= s -> descends k s ((k', s') :: t) ->
  chain_value k k s ((k', s') :: t) = s.
Proof.
  intros Hk Hs Hd. apply chain_value_anchor; try assumption. now left.
Qed.

Lemma chain_value_strict (t : table) : forall k s k' s' r1 r2,
  (0 < k)%Z -> 0.001 <= s -> descends k s ((k', s') :: t) ->
  strictly_descends s ((k', s') :: t) ->
  (k <= r1)%Z -> (r1 < r2)%Z -> (r2 <= fst (chain_last k' s' t))%Z ->
  chain_value r2 k s ((k', s') :: t) < chain_value r1 k s ((k', s') :: t).
Proof.
  induction t as [|[k2 s2] t IH]; intros k s k' s' r1 r2 Hk Hs Hd Hsd H1 H12 H2.
  - destruct Hd as (Hlt & Hs' & Hf & _). destruct Hsd as [Hss _].
    simpl in H2 |- *.
    destruct (Z.leb_spec k r1); [|lia].
    destruct (Z.leb_spec r1 k'); [|lia].
    destruct (Z.leb_spec k r2); [|lia].
    destruct (Z.leb_spec r2 k'); [|lia]. simpl.
    apply segment_strict; try assumption; lra.
  - pose proof Hd as (Hlt & Hs' & Hf & Hd').
    pose proof Hsd as [Hss Hsd'].
    change (chain_last k' s' ((k2, s2) :: t)) with (chain_last k2 s2 t) in *.
    destruct (Z_le_gt_dec r2 k') as [Hle | Hgt2].
    + cbn [chain_value].
      destruct (Z.leb_spec k r1); [|lia].
      destruct (Z.leb_spec r1 k'); [|lia].
      destruct (Z.leb_spec k r2); [|lia].
      destruct (Z.leb_spec r2 k'); [|lia]. simpl.
      apply segment_strict; try assumption; lra.
    + assert (chain_value r2 k s ((k', s') :: (k2, s2) :: t)
              = chain_value r2 k' s' ((k2, s2) :: t)) as ->.
      { cbn [chain_value].
        destruct (Z.leb_spec r2 k'); [lia|]. now rewrite andb_false_r. }
      destruct (Z_le_gt_dec r1 k') as [Hle1 | Hgt1].
      * assert (chain_value r1 k s ((k', s') :: (k2, s2) :: t)
                = segment k k' s s' r1) as ->.
        { cbn [chain_value].
          destruct (Z.leb_spec k r1); [|lia].
          destruct (Z.leb_spec r1 k'); [|lia]. reflexivity. }
        pose proof (segment_bounds k k' s s' Hk Hlt ltac:(lra) Hs' r1
                      (conj H1 Hle1)) as Hb.
        pose proof (IH k' s' k2 s2 k' r2 ltac:(lia) Hf Hd' Hsd'
                      ltac:(lia) ltac:(lia) ltac:(lia)) as Hlater.
        rewrite (chain_value_head t k' s' k2 s2 ltac:(lia) Hf Hd') in Hlater.
        lra.
      * assert (chain_value r1 k s ((k', s') :: (k2, s2) :: t)
                = chain_value r1 k' s' ((k2, s2) :: t)) as ->.
        { cbn [chain_value].
          destruct (Z.leb_spec r1 k'); [lia|]. now rewrite andb_false_r. }
        apply IH; try assumption; lia.
Qed.

Lemma sales_curve_strict (T : table) (r1 r2 : Z) :
  calibrated T -> strictly_decreasing T ->
  (0 < r1)%Z -> (r1 < r2)%Z -> sales_curve T r2 < sales_curve T r1.
Proof.
  intros Hc Hsd H1 H12.
  destruct T as [|[k s] [|[k' s'] t]] eqn:ET; try contradiction.
  destruct Hc as (Hk & Hs & Hd).
  pose proof (chain_last_bounds _ k s Hd) as [Hkl Hsl].
  pose proof (chain_last_floor _ k s Hs Hd) as Hfl.
  cbn [sales_curve].
  change (chain_last k s ((k', s') :: t)) with (chain_last k' s' t) in *.
  set (kl := fst (chain_last k' s' t)) in *.
  set (sl := snd (chain_last k' s' t)) in *.
  assert (forall r, (k <= r <= kl)%Z ->
            sl <= chain_value r k s ((k', s') :: t) <= s) as Hmid
    by (intros r Hr; now apply chain_value_bounds).
  destruct (Z.ltb_spec r1 k); destruct (Z.ltb_spec r2 k); try lia.
  - apply tail_better_strict; try assumption; lra.
  - pose proof (tail_better_gt k s r1 Hk ltac:(lra) ltac:(lia)) as Hb.
    destruct (Z.gtb_spec r2 kl).
    + pose proof (tail_worse_le kl sl ltac:(lia) ltac:(lra) r2 ltac:(lia)).
      lra.
    + pose proof (Hmid r2 ltac:(lia)). lra.
  - destruct (Z.gtb_spec r1 kl); destruct (Z.gtb_spec r2 kl); try lia.
    + apply tail_worse_strict; try assumption; try lia; lra.
    + pose proof (tail_worse_lt kl sl r2 ltac:(lia) ltac:(lra) ltac:(lia)).
      pose proof (Hmid r1 ltac:(lia)). lra.
    + apply chain_value_strict; try assumption; lia.
Qed.

Lemma all_tables_strictly_decreasing : Forall strictly_decreasing all_tables.
Proof. repeat constructor; simpl; lra. Qed.

Lemma select_table_strict (book_type marketplace : string) :
  exists T,
    select_table book_type marketplace = Some T
    /\ calibrated T /\ strictly_decreasing T.
Proof.
  destruct (select_table_cases book_type marketplace) as (T & HT & Hin).
  exists T. split; [assumption|].
  pose proof all_tables_calibrated as H1.
  pose proof all_tables_strictly_decreasing as H2.
  rewrite Forall_forall in H1, H2. auto.
Qed.
End StrictCurve.

Section RoundTrip.
Import Py PyFloat BSRCalculator.
Local Open Scope R_scope.
Local Open Scope string_scope.

(** Before rounding, a worse rank has strictly lower sales: no two ranks
    from 1 to 10000000, the range of the inverse query, share an
    interpolated value, in any table.  (Far beyond that range two
    neighbouring ranks can no longer be told apart in binary64.) *)
Theorem interpolation_strictly_decreasing
    (r1 r2 : Z) (book_type marketplace : string) :
  (0 < r1)%Z -> (r1 < r2)%Z -> (r2 <= 10000000)%Z ->
  exists T v1 v2,
    select_table book_type marketplace = Some T
    /\ _interpolate_sales r1 T = Some v1
    /\ _interpolate_sales r2 T = Some v2
    /\ v2 < v1.
Proof.
  intros H1 H12 _.
  destruct (select_table_strict book_type marketplace) as (T & HT & Hc & Hs).
  exists T, (sales_curve T r1), (sales_curve T r2).
  repeat split; try assumption.
  - now apply interpolate_sales_curve.
  - apply interpolate_sales_curve; [assumption | lia].
  - now apply sales_curve_strict.
Qed.

Lemma interpolation_strictly_decreasing_witness :
  (0 < 9999998)%Z /\ (9999998 < 9999999)%Z /\ (9999999 <= 10000000)%Z
  /\ exists T v1 v2,
       select_table "ebook" "amazon.com" = Some T
       /\ _interpolate_sales 9999998 T = Some v1
       /\ _interpolate_sales 9999999 T = Some v2
       /\ v2 < v1.
Proof.
  split; [lia|]. split; [lia|]. split; [lia|].
  apply (interpolation_strictly_decreasing 9999998 9999999
           "ebook" "amazon.com"); lia.
Defined.

(** Asking for the rank that reaches the interpolated sales of rank [r]
    gives back [r - 1], for every rank from 2 to 10000000: the inverse
    query undoes the interpolation up to one rank. *)
Theorem inverse_query_undoes_interpolation
    (r : Z) (book_type marketplace : string) :
  (2 <= r <= 10000000)%Z ->
  exists T v,
    select_table book_type marketplace = Some T
    /\ _interpolate_sales r T = Some v
    /\ get_bsr_for_target_sales v book_type marketplace = Some (r - 1)%Z.
Proof.
  intros Hr.
  destruct (select_table_strict book_type marketplace) as (T & HT & Hc & Hs).
  exists T, (sales_curve T r). split; [assumption|].
  split; [apply interpolate_sales_curve; [assumption | lia]|].
  destruct (target_sales_crossing (sales_curve T r) book_type marketplace)
    as (T' & k & HT' & _ & -> & Hk & Habove & Hbelow).
  assert (T' = T) as -> by congruence.
  f_equal.
  destruct (Z_lt_ge_dec k r) as [Hlt | Hge].
  - destruct (Z_lt_ge_dec k (r - 1)) as [Hlt' | Hge']; [|lia].
    pose proof (Hbelow (r - 1)%Z ltac:(lia)).
    pose proof (sales_curve_strict T (r - 1) r Hc Hs ltac:(lia) ltac:(lia)).
    lra.
  - pose proof (Habove r ltac:(lia)). lra.
Qed.

Lemma inverse_query_undoes_interpolation_witness :
  (2 <= 5000 <= 10000000)%Z
  /\ exists T v,
       select_table "hardcover" "amazon.com" = Some T
       /\ _interpolate_sales 5000 T = Some v
       /\ get_bsr_for_target_sales v "hardcover" "amazon.com" = Some 4999%Z.
Proof.
  split; [lia|].
  apply (inverse_query_undoes_interpolation 5000 "hardcover" "amazon.com").
  lia.
Defined.
End RoundTrip.

(** ** Comparing tables: pointwise order *)

Section TableOrder.
Import Py PyFloat BSRCalculator.
Local Open Scope R_scope.
Local Open Scope string_scope.

Lemma segment_fraction (lo hi r : Z) :
  (0 < lo)%Z -> (lo < hi)%Z -> (lo <= r <= hi)%Z ->
  0 <= (lg (IZR r) - lg (IZR lo)) / (lg (IZR hi) - lg (IZR lo)) <= 1.
Proof.
  intros Hlo Hlt [H1 H2].
  pose proof (segment_width lo hi Hlo Hlt) as Hw.
  assert (lg (IZR lo) <= lg (IZR r))
    by (apply lg_le; [apply IZR_lt; lia | now apply IZR_le]).
  assert (lg (IZR r) <= lg (IZR hi))
    by (apply lg_le; [apply IZR_lt; lia | now apply IZR_le]).
  remember (lg (IZR hi) - lg (IZR lo)) as w eqn:Ew.
  split.
  - apply Rmult_le_pos; [lra|]. left. now apply Rinv_0_lt_compat.
  - replace 1 with (w / w) by (field; lra). apply ratio_le; lra.
Qed.

Lemma segment_mono_sales (lo hi r : Z) (slo1 shi1 slo2 shi2 : R) :
  (0 < lo)%Z -> (lo < hi)%Z -> (lo <= r <= hi)%Z ->
  0 < slo1 -> slo1 <= slo2 -> 0 < shi1 -> shi1 <= shi2 ->
  segment lo hi slo1 shi1 r <= segment lo hi slo2 shi2 r.
Proof.
  intros Hlo Hlt Hr H1 H12 H3 H34. unfold segment.
  apply Rle_Rpower; [lra|].
  pose proof (segment_fraction lo hi r Hlo Hlt Hr) as Hq.
  pose proof (lg_le slo1 slo2 H1 H12).
  pose proof (lg_le shi1 shi2 H3 H34).
  set (q := (lg (IZR r) - lg (IZR lo)) / (lg (IZR hi) - lg (IZR lo))) in *.
  nra.
Qed.

Lemma chain_value_below (t1 : table) : forall t2 k s1 s2 r,
  below ((k, s1) :: t1) ((k, s2) :: t2) ->
  (0 < k)%Z -> 0.001 <= s1 -> descends k s1 t1 ->
  chain_value r k s1 t1 <= chain_value r k s2 t2.
Proof.
  induction t1 as [|[k1 a1] t1 IH]; intros t2 k s1 s2 r Hb Hk Hs Hd;
    destruct t2 as [|[k2 a2] t2]; simpl in Hb; try tauto.
  - simpl. lra.
  - destruct Hb as (_ & Hs12 & <- & Ha & Hb).
    destruct Hd as (Hlt & _ & Hf & Hd).
    cbn [chain_value].
    destruct ((k <=? r) && (r <=? k1))%Z eqn:E.
    + apply andb_true_iff in E. destruct E as [E1 E2].
      apply Z.leb_le in E1, E2.
      apply segment_mono_sales; try assumption; try lra. lia.
    + apply IH; try assumption; try lia. simpl. tauto.
Qed.

Lemma chain_last_below (t1 : table) : forall t2 k s1 s2,
  below ((k, s1) :: t1) ((k, s2) :: t2) ->
  fst (chain_last k s1 t1) = fst (chain_last k s2 t2)
  /\ snd (chain_last k s1 t1) <= snd (chain_last k s2 t2).
Proof.
  induction t1 as [|[k1 a1] t1 IH]; intros t2 k s1 s2 Hb;
    destruct t2 as [|[k2 a2] t2]; simpl in Hb; try tauto.
  destruct Hb as (_ & _ & <- & Ha & Hb). simpl. apply IH. simpl. tauto.
Qed.

Lemma sales_curve_below (T1 T2 : table) (r : Z) :
  below T1 T2 -> calibrated T1 -> calibrated T2 -> (0 < r)%Z ->
  sales_curve T1 r <= sales_curve T2 r.
Proof.
  intros Hb Hc1 Hc2 Hr.
  destruct T1 as [|[k s1] t1]; [contradiction|].
  destruct T2 as [|[k2 s2] t2]; [contradiction|].
  assert (k2 = k) as -> by (simpl in Hb; symmetry; tauto).
  assert (s1 <= s2) as Hs12 by (simpl in Hb; tauto).
  destruct t1 as [|[k1 a1] t1]; [contradiction|].
  destruct t2 as [|[k2 a2] t2]; [contradiction|].
  destruct Hc1 as (Hk & Hs1 & Hd1). destruct Hc2 as (_ & Hs2 & Hd2).
  destruct (chain_last_below _ _ k s1 s2 Hb) as [Ek Es].
  pose proof (chain_last_bounds _ k s1 Hd1) as [Hkl _].
  pose proof (chain_last_floor _ k s1 Hs1 Hd1) as Hfl.
  cbn [sales_curve]. rewrite <- Ek.
  set (kl := fst (chain_last k s1 ((k1, a1) :: t1))) in *.
  destruct (Z.ltb_spec r k).
  - unfold tail_better. apply Rmult_le_compat_r; [|assumption].
    left. apply Rpower_pos.
  - destruct (Z.gtb_spec r kl).
    + unfold tail_worse. apply ratio_le; [apply Rpower_pos | assumption].
    + now apply chain_value_below.
Qed.

Lemma estimates_below (T1 T2 : table) (r : Z) (b1 m1 b2 m2 : string) :
  select_table b1 m1 = Some T1 -> select_table b2 m2 = Some T2 ->
  below T1 T2 -> calibrated T1 -> calibrated T2 ->
  fst (calculate_sales_estimates r b1 m1)
  <= fst (calculate_sales_estimates r b2 m2)
  /\ snd (calculate_sales_estimates r b1 m1)
     <= snd (calculate_sales_estimates r b2 m2).
Proof.
  intros HT1 HT2 Hb Hc1 Hc2.
  destruct (Z_lt_le_dec 0 r) as [Hr | Hr].
  - rewrite (estimates_of_curve T1 r b1 m1 HT1 Hc1 Hr).
    rewrite (estimates_of_curve T2 r b2 m2 HT2 Hc2 Hr).
    pose proof (sales_curve_below T1 T2 r Hb Hc1 Hc2 Hr).
    cbn [fst snd]. split; apply round2_le; lra.
  - rewrite !estimates_at_nonpositive by assumption. cbn [fst snd]. lra.
Qed.

Ltac calibrated_table :=
  match goal with
  | |- calibrated ?T =>
      let H := fresh in
      pose proof all_tables_calibrated as H;
      rewrite Forall_forall in H; apply H; simpl; tauto
  end.

(** At the same rank and for the same book type, the amazon.co.uk
    estimate never exceeds the amazon.com one, daily or monthly. *)
Theorem uk_estimate_never_exceeds_us (r : Z) (book_type : string) :
  fst (calculate_sales_estimates r book_type "amazon.co.uk")
  <= fst (calculate_sales_estimates r book_type "amazon.com")
  /\ snd (calculate_sales_estimates r book_type "amazon.co.uk")
     <= snd (calculate_sales_estimates r book_type "amazon.com").
Proof.
  destruct (book_type_cases book_type)
    as [-> | [-> | [-> | (B1 & B2 & B3)]]].
  - apply (estimates_below uk_ebook com_ebook); try reflexivity;
      try calibrated_table. simpl. repeat split; lra.
  - apply (estimates_below uk_paperback com_paperback); try reflexivity;
      try calibrated_table. simpl. repeat split; lra.
  - apply (estimates_below uk_hardcover com_hardcover); try reflexivity;
      try calibrated_table. simpl. repeat split; lra.
  - apply (estimates_below uk_ebook com_ebook); try calibrated_table.
    + unfold select_table, get. cbn. rewrite B1, B2, B3. reflexivity.
    + unfold select_table, get. cbn. rewrite B1, B2, B3. reflexivity.
    + simpl. repeat split; lra.
Qed.

(** At the same rank and in the same marketplace, known or not, the
    hardcover estimate is at most the paperback one, which is at most the
    ebook one. *)
Theorem format_estimates_are_ordered (r : Z) (marketplace : string) :
  fst (calculate_sales_estimates r "hardcover" marketplace)
  <= fst (calculate_sales_estimates r "paperback" marketplace)
  <= fst (calculate_sales_estimates r "ebook" marketplace).
Proof.
  destruct (marketplace_cases marketplace) as [-> | [-> | [M1 M2]]].
  - split.
    + apply (estimates_below com_hardcover com_paperback); try reflexivity;
        try calibrated_table. simpl. repeat split; lra.
    + apply (estimates_below com_paperback com_ebook); try reflexivity;
        try calibrated_table. simpl. repeat split; lra.
  - split.
    + apply (estimates_below uk_hardcover uk_paperback); try reflexivity;
        try calibrated_table. simpl. repeat split; lra.
    + apply (estimates_below uk_paperback uk_ebook); try reflexivity;
        try calibrated_table. simpl. repeat split; lra.
  - split.
    + apply (estimates_below com_hardcover com_paperback);
        try calibrated_table;
        try (unfold select_table, get; cbn; rewrite M1, M2; reflexivity).
      simpl. repeat split; lra.
    + apply (estimates_below com_paperback com_ebook);
        try calibrated_table;
        try (unfold select_table, get; cbn; rewrite M1, M2; reflexivity).
      simpl. repeat split; lra.
Qed.
End TableOrder.

(** ** Competition and opportunity scores *)

Section Scores.
Import KeywordService.

Lemma ltb_leb (x y : float) : (x <? y)%float = true -> (x <=? y)%float = true.
Proof.
  rewrite ltb_spec, leb_spec. unfold SFltb, SFleb.
  destruct (SFcompare (Prim2SF x) (Prim2SF y)) as [[]|];
    intros; try discriminate; reflexivity.
Qed.

(** Whatever the keyword and whatever the random factor, NaN and
    infinities included, the competition score lies between 0 and 1. *)
Theorem competition_score_in_unit_interval (keyword : string) (jitter : float) :
  (0 <=? _calculate_competition_score keyword jitter)%float = true
  /\ (_calculate_competition_score keyword jitter <=? 1)%float = true.
Proof.
  unfold _calculate_competition_score. cbv zeta.
  match goal with
  | |- context [fmax 0 ?x] => generalize x
  end.
  intros x. unfold fmin, fmax.
  destruct (0 <? x)%float eqn:E0.
  - destruct (x <? 1)%float eqn:E1.
    + split; now apply ltb_leb.
    + split; reflexivity.
  - change (0 <? 1)%float with true. cbv iota. split; reflexivity.
Qed.
End Scores.

Section Opportunity.
Import Py PyFloat KeywordService.
Local Open Scope R_scope.

Lemma round3_le (x y : R) : x <= y -> round3 x <= round3 y.
Proof.
  intros Hxy. unfold round3.
  assert (round_half_even (x * 1000) <= round_half_even (y * 1000))%Z as H
    by (apply round_half_even_le; lra).
  apply IZR_le in H. lra.
Qed.

Lemma round3_thousandths (x : R) (k : Z) : x * 1000 = IZR k -> round3 x = x.
Proof.
  intros H. unfold round3. rewrite H, round_half_even_IZR. lra.
Qed.

(** The unrounded score of a positive volume. *)
Lemma opportunity_of_positive (volume : Z) (competition : R) :
  (0 < volume)%Z ->
  _calculate_opportunity_score volume competition
  = Some (round3 (Rmin 1 (lg (IZR volume) / 4) * 0.6
                  + (1 - competition) * 0.4)).
Proof.
  intros Hv. unfold _calculate_opportunity_score.
  destruct (Z.leb_spec volume 0); [lia|].
  rewrite log10_pos by (apply IZR_lt; lia). reflexivity.
Qed.

Lemma volume_score_bounds (volume : Z) :
  (0 < volume)%Z -> 0 <= Rmin 1 (lg (IZR volume) / 4) <= 1.
Proof.
  intros Hv.
  assert (0 <= lg (IZR volume)) as Hl.
  { rewrite <- lg_1. apply lg_le; [lra|]. apply IZR_le. lia. }
  split.
  - apply Rmin_glb; lra.
  - apply Rmin_l.
Qed.

Lemma volume_score_mono (v1 v2 : Z) :
  (0 < v1)%Z -> (v1 <= v2)%Z ->
  Rmin 1 (lg (IZR v1) / 4) <= Rmin 1 (lg (IZR v2) / 4).
Proof.
  intros H1 H12.
  assert (lg (IZR v1) <= lg (IZR v2)) as Hl
    by (apply lg_le; [apply IZR_lt; lia | now apply IZR_le]).
  apply Rle_min_compat_l. lra.
Qed.

(** For a competition score between 0 and 1 the opportunity score is
    returned without raising and lies between 0 and 1, for every volume,
    positive or not. *)
Theorem opportunity_score_in_unit_interval (volume : Z) (competition : R) :
  0 <= competition <= 1 ->
  exists score,
    _calculate_opportunity_score volume competition = Some score
    /\ 0 <= score <= 1.
Proof.
  intros Hc.
  destruct (Z_lt_le_dec 0 volume) as [Hv | Hv].
  - rewrite (opportunity_of_positive volume competition Hv).
    eexists. split; [reflexivity|].
    pose proof (volume_score_bounds volume Hv) as Hs.
    split.
    + apply Rle_trans with (round3 0);
        [rewrite (round3_thousandths 0 0); lra | apply round3_le; nra].
    + apply Rle_trans with (round3 1);
        [apply round3_le; nra | rewrite (round3_thousandths 1 1000); lra].
  - exists 0. split; [|lra].
    unfold _calculate_opportunity_score.
    destruct (Z.leb_spec volume 0); [reflexivity | lia].
Qed.

Lemma opportunity_score_in_unit_interval_witness :
  0 <= 0.35 <= 1
  /\ exists score,
       _calculate_opportunity_score 1200 0.35 = Some score
       /\ 0 <= score <= 1.
Proof.
  split; [lra|].
  apply (opportunity_score_in_unit_interval 1200 0.35). lra.
Defined.

(** The opportunity score never decreases when the volume grows and never
    increases when the competition grows, for competition scores of at
    most 1. *)
Theorem opportunity_score_is_monotone
    (volume1 volume2 : Z) (competition1 competition2 : R) :
  (volume1 <= volume2)%Z -> competition2 <= competition1 ->
  competition1 <= 1 ->
  exists score1 score2,
    _calculate_opportunity_score volume1 competition1 = Some score1
    /\ _calculate_opportunity_score volume2 competition2 = Some score2
    /\ score1 <= score2.
Proof.
  intros Hv Hc Hc1.
  destruct (Z_lt_le_dec 0 volume1) as [H1 | H1].
  - rewrite (opportunity_of_positive volume1 competition1 H1).
    rewrite (opportunity_of_positive volume2 competition2) by lia.
    do 2 eexists. split; [reflexivity|]. split; [reflexivity|].
    apply round3_le.
    pose proof (volume_score_mono volume1 volume2 H1 Hv). lra.
  - assert (_calculate_opportunity_score volume1 competition1 = Some 0) as ->.
    { unfold _calculate_opportunity_score.
      destruct (Z.leb_spec volume1 0); [reflexivity | lia]. }
    destruct (Z_lt_le_dec 0 volume2) as [H2 | H2].
    + rewrite (opportunity_of_positive volume2 competition2 H2).
      do 2 eexists. split; [reflexivity|]. split; [reflexivity|].
      pose proof (volume_score_bounds volume2 H2) as Hs.
      apply Rle_trans with (round3 0);
        [rewrite (round3_thousandths 0 0); lra | apply round3_le; nra].
    + exists 0, 0. repeat split; try lra.
      unfold _calculate_opportunity_score.
      destruct (Z.leb_spec volume2 0); [reflexivity | lia].
Qed.

Lemma opportunity_score_is_monotone_witness :
  (50 <= 900)%Z /\ 0.2 <= 0.7 /\ 0.7 <= 1
  /\ exists score1 score2,
       _calculate_opportunity_score 50 0.7 = Some score1
       /\ _calculate_opportunity_score 900 0.2 = Some score2
       /\ score1 <= score2.
Proof.
  split; [lia|]. split; [lra|]. split; [lra|].
  apply (opportunity_score_is_monotone 50 900 0.7 0.2); try lra. lia.
Defined.

(** From 10000 searches on, the volume no longer matters: the score is
    that of a volume of 10000, whatever the competition. *)
Theorem opportunity_score_saturates (volume : Z) (competition : R) :
  (10000 <= volume)%Z ->
  _calculate_opportunity_score volume competition
  = _calculate_opportunity_score 10000 competition.
Proof.
  intros Hv.
  rewrite !opportunity_of_positive by lia.
  assert (lg 10000 = 4) as E4.
  { replace 10000 with ((10 * 10) * (10 * 10)) by lra.
    rewrite !lg_mult by lra. rewrite lg_10. lra. }
  assert (4 <= lg (IZR volume)) as Hl.
  { rewrite <- E4. apply lg_le; [lra|]. now apply IZR_le. }
  rewrite E4.
  rewrite !Rmin_left by lra. reflexivity.
Qed.

Lemma opportunity_score_saturates_witness :
  (10000 <= 27337)%Z
  /\ _calculate_opportunity_score 27337 0.5
     = _calculate_opportunity_score 10000 0.5.
Proof.
  split; [lia|]. apply (opportunity_score_saturates 27337 0.5). lia.
Defined.
End Opportunity.

(** ** Letter case *)

Section LetterCase.
Import KeywordService.

Lemma is_space_lower_char (c : ascii) : is_space (lower_char c) = is_space c.
Proof. destruct c as [[] [] [] [] [] [] [] []]; reflexivity. Qed.

Lemma lower_char_idempotent (c : ascii) :
  lower_char (lower_char c) = lower_char c.
Proof. destruct c as [[] [] [] [] [] [] [] []]; reflexivity. Qed.

Lemma lower_idempotent (s : string) : lower (lower s) = lower s.
Proof.
  induction s as [|c s IH]; [reflexivity|].
  cbn [lower]. now rewrite lower_char_idempotent, IH.
Qed.

Lemma word_count_lower (s : string) : forall w w' : list ascii,
  (w = [] <-> w' = []) ->
  List.length (split_from w' (lower s)) = List.length (split_from w s).
Proof.
  induction s as [|c s IH]; intros w w' Hw.
  - cbn [lower split_from].
    destruct w, w'; try reflexivity.
    + destruct Hw as [Hw _]. discriminate (Hw eq_refl).
    + destruct Hw as [_ Hw]. discriminate (Hw eq_refl).
  - cbn [lower split_from]. rewrite is_space_lower_char.
    destruct (is_space c).
    + destruct w, w'.
      * apply IH. tauto.
      * destruct Hw as [Hw _]. discriminate (Hw eq_refl).
      * destruct Hw as [_ Hw]. discriminate (Hw eq_refl).
      * cbn [List.length]. f_equal. apply IH. tauto.
    + apply IH. split; discriminate.
Qed.

(** Neither score looks at letter case: a keyword and its lowercased form,
    under which it is stored, get the same volume and the same competition
    for the same random factor. *)
Theorem scores_ignore_letter_case (keyword : string) (jitter : float) :
  _estimate_search_volume (lower keyword) jitter
  = _estimate_search_volume keyword jitter
  /\ _calculate_competition_score (lower keyword) jitter
     = _calculate_competition_score keyword jitter.
Proof.
  assert (List.length (split (lower keyword)) = List.length (split keyword))
    as E by (apply word_count_lower; tauto).
  split.
  - unfold _estimate_search_volume, common_step.
    now rewrite E, lower_idempotent.
  - unfold _calculate_competition_score. now rewrite E.
Qed.
End LetterCase.

(** ** Related keywords *)

Section RelatedKeywords.
Import KeywordService.
Local Open Scope string_scope.

Lemma split_from_app_space (a : string) : forall (w : list ascii) (b : string),
  split_from w (a ++ String " " b) = (split_from w a ++ split b)%list.
Proof.
  induction a as [|c a IH]; intros w b.
  - cbn [append split_from]. change (is_space " ") with true. cbv iota.
    destruct w; reflexivity.
  - cbn [append split_from]. destruct (is_space c).
    + rewrite IH. destruct w; reflexivity.
    + apply IH.
Qed.

Lemma string_of_snoc (l : list ascii) (c : ascii) (s : string) :
  string_of_list_ascii (l ++ [c]) ++ s = string_of_list_ascii l ++ String c s.
Proof.
  induction l as [|d l IH]; [reflexivity|].
  cbn [app string_of_list_ascii append]. now rewrite IH.
Qed.

Lemma append_empty (s : string) : s ++ "" = s.
Proof. induction s as [|c s IH]; [reflexivity|]. cbn. now rewrite IH. Qed.

Lemma split_from_word (w : string) : forall acc : list ascii,
  forallb (fun c => negb (is_space c)) (list_ascii_of_string w) = true ->
  acc <> [] \/ w <> "" ->
  split_from acc w = [string_of_list_ascii (rev acc) ++ w].
Proof.
  induction w as [|c w IH]; intros acc Hw Hne.
  - cbn [split_from]. destruct acc as [|d acc].
    + destruct Hne as [H | H]; contradiction.
    + now rewrite append_empty.
  - cbn [list_ascii_of_string forallb] in Hw.
    apply andb_true_iff in Hw. destruct Hw as [Hc Hw].
    cbn [split_from]. apply negb_true_iff in Hc. rewrite Hc.
    rewrite IH; [|assumption | left; discriminate].
    cbn [rev]. now rewrite string_of_snoc.
Qed.

Lemma split_word (w : string) : is_word w -> split w = [w].
Proof.
  intros [Hne Hw]. unfold split.
  rewrite split_from_word; [reflexivity | assumption | now right].
Qed.

Lemma split_from_words (s : string) : forall acc : list ascii,
  forallb (fun c => negb (is_space c)) acc = true ->
  Forall is_word (split_from acc s).
Proof.
  assert (forall acc : list ascii,
            acc <> [] ->
            forallb (fun c => negb (is_space c)) acc = true ->
            is_word (string_of_list_ascii (rev acc))) as Hflush.
  { intros acc Hne Hacc. split.
    - intros E. apply (f_equal list_ascii_of_string) in E.
      rewrite list_ascii_of_string_of_list_ascii in E. cbn in E.
      apply (f_equal (@rev ascii)) in E. rewrite rev_involutive in E.
      contradiction.
    - rewrite list_ascii_of_string_of_list_ascii.
      apply forallb_forall. intros c Hc. apply in_rev in Hc.
      rewrite forallb_forall in Hacc. now apply Hacc. }
  induction s as [|c s IH]; intros acc Hacc.
  - cbn [split_from]. destruct acc as [|d acc]; [constructor|].
    constructor; [|constructor]. apply Hflush; [discriminate | assumption].
  - cbn [split_from]. destruct (is_space c) eqn:Hc.
    + destruct acc as [|d acc]; [now apply IH|].
      constructor; [apply Hflush; [discriminate | assumption] | now apply IH].
    + apply IH. cbn [forallb]. now rewrite Hc, Hacc.
Qed.

Lemma split_words (s : string) : Forall is_word (split s).
Proof. now apply split_from_words. Qed.

Lemma split_join (ws : list string) :
  Forall is_word ws -> split (join " " ws) = ws.
Proof.
  induction 1 as [|w ws Hw Hws IH]; [reflexivity|].
  destruct ws as [|w2 ws].
  - now apply split_word.
  - change (join " " (w :: w2 :: ws))
      with (w ++ String " " (join " " (w2 :: ws))).
    unfold split at 1. rewrite split_from_app_space.
    fold (split w). rewrite IH. now rewrite split_word.
Qed.
End RelatedKeywords.

Section RelatedKeywordsTheorems.
Import KeywordService.
Local Open Scope string_scope.

(** Every related keyword keeps every word of the seed: the prefixed and
    suffixed ones add words around it, the reordered one only permutes
    them. *)
Theorem related_keywords_keep_seed_words (seed_keyword keyword word : string) :
  In keyword (_generate_related_keywords seed_keyword) ->
  In word (split seed_keyword) ->
  In word (split keyword).
Proof.
  intros Hk Hw.
  assert (In keyword
            (map (fun prefix => prefix ++ " " ++ seed_keyword) prefixes
             ++ map (fun suffix => seed_keyword ++ " " ++ suffix) suffixes)
          \/ keyword = join " " (rev (split seed_keyword))) as [Hin | ->].
  { unfold _generate_related_keywords in Hk. cbv zeta in Hk.
    destruct (1 <? List.length (split seed_keyword))%nat; [|now left].
    apply in_app_or in Hk. destruct Hk as [Hk | [<- | []]]; [now left | now right]. }
  - apply in_app_or in Hin. destruct Hin as [Hin | Hin];
      apply in_map_iff in Hin; destruct Hin as (affix & <- & _).
    + change (affix ++ " " ++ seed_keyword)
        with (affix ++ String " " seed_keyword).
      unfold split at 1. rewrite split_from_app_space.
      apply in_or_app. now right.
    + change (seed_keyword ++ " " ++ affix)
        with (seed_keyword ++ String " " affix).
      unfold split at 1. rewrite split_from_app_space.
      apply in_or_app. now left.
  - rewrite split_join by (apply Forall_rev, split_words).
    now apply in_rev in Hw.
Qed.

Lemma related_keywords_keep_seed_words_witness :
  In "rocq proofs handbook" (_generate_related_keywords "rocq proofs")
  /\ In "proofs" (split "rocq proofs")
  /\ In "proofs" (split "rocq proofs handbook").
Proof.
  assert (In "rocq proofs handbook" (_generate_related_keywords "rocq proofs"))
    as Hk by (vm_compute; tauto).
  assert (In "proofs" (split "rocq proofs")) as Hw by (vm_compute; tauto).
  split; [exact Hk|]. split; [exact Hw|].
  apply (related_keywords_keep_seed_words
           "rocq proofs" "rocq proofs handbook" "proofs" Hk Hw).
Defined.

(** For a seed of two words or more the list ends with one extra keyword,
    after the thirteen prefixed and suffixed ones, whose words are the
    words of the seed in reverse order. *)
Theorem reordered_keyword_reverses_seed_words (seed_keyword : string) :
  (1 < List.length (split seed_keyword))%nat ->
  exists affixed reordered,
    _generate_related_keywords seed_keyword = (affixed ++ [reordered])%list
    /\ List.length affixed = 13%nat
    /\ split reordered = rev (split seed_keyword).
Proof.
  intros Hlen. unfold _generate_related_keywords. cbv zeta.
  destruct (Nat.ltb_spec 1 (List.length (split seed_keyword))); [|lia].
  do 2 eexists. split; [reflexivity|]. split.
  - rewrite length_app, !length_map. reflexivity.
  - apply split_join. apply Forall_rev, split_words.
Qed.

Lemma reordered_keyword_reverses_seed_words_witness :
  (1 < List.length (split "kindle  publishing guide"))%nat
  /\ exists affixed reordered,
       _generate_related_keywords "kindle  publishing guide"
       = (affixed ++ [reordered])%list
       /\ List.length affixed = 13%nat
       /\ split reordered = rev (split "kindle  publishing guide").
Proof.
  assert (1 < List.length (split "kindle  publishing guide"))%nat as H
    by (vm_compute; lia).
  split; [exact H|].
  apply (reordered_keyword_reverses_seed_words "kindle  publishing guide" H).
Defined.

(** A seed of one word, or of none, gets the thirteen prefixed and
    suffixed keywords and no reordered one. *)
Theorem short_seed_gets_thirteen_keywords (seed_keyword : string) :
  (List.length (split seed_keyword) <= 1)%nat ->
  List.length (_generate_related_keywords seed_keyword) = 13%nat
  /\ forall keyword,
       In keyword (_generate_related_keywords seed_keyword) ->
       (List.length (split seed_keyword) < List.length (split keyword))%nat.
Proof.
  intros Hlen. unfold _generate_related_keywords. cbv zeta.
  destruct (Nat.ltb_spec 1 (List.length (split seed_keyword))); [lia|].
  split; [rewrite length_app, !length_map; reflexivity|].
  intros keyword Hin.
  apply in_app_or in Hin. destruct Hin as [Hin | Hin];
    apply in_map_iff in Hin; destruct Hin as (affix & <- & Haffix).
  - change (affix ++ " " ++ seed_keyword)
      with (affix ++ String " " seed_keyword).
    unfold split at 2. rewrite split_from_app_space. rewrite length_app.
    fold (split affix).
    assert (0 < List.length (split affix))%nat; [|unfold split in *; lia].
    simpl in Haffix.
    repeat (destruct Haffix as [<- | Haffix]; [vm_compute; lia|]).
    contradiction.
  - change (seed_keyword ++ " " ++ affix)
      with (seed_keyword ++ String " " affix).
    unfold split at 2. rewrite split_from_app_space. rewrite length_app.
    assert (0 < List.length (split affix))%nat; [|unfold split in *; lia].
    simpl in Haffix.
    repeat (destruct Haffix as [<- | Haffix]; [vm_compute; lia|]).
    contradiction.
Qed.
End RelatedKeywordsTheorems.

Section RelatedKeywordsWitness.
Import KeywordService.
Local Open Scope string_scope.

Lemma short_seed_gets_thirteen_keywords_witness :
  (List.length (split "gardening") <= 1)%nat
  /\ List.length (_generate_related_keywords "gardening") = 13%nat.
Proof.
  assert (List.length (split "gardening") <= 1)%nat as H by (vm_compute; lia).
  split; [exact H|].
  apply (short_seed_gets_thirteen_keywords "gardening" H).
Defined.
End RelatedKeywordsWitness.

(** ** Freshness over time and over windows *)

Section FreshnessOrder.
Import KeywordService.
Local Open Scope Z_scope.

(** Freshness only ever goes away: a record that is fresh at some instant
    under some window was fresh at every earlier instant, and is fresh
    under every larger window. *)
Theorem freshness_is_monotone
    (earlier later : datetime) (last_updated : option datetime)
    (window larger_window : Z) :
  earlier <= later -> window <= larger_window ->
  _is_data_fresh later last_updated window = true ->
  _is_data_fresh earlier last_updated larger_window = true.
Proof.
  intros Ht Hw. destruct last_updated as [lu|]; [|discriminate].
  unfold _is_data_fresh, datetime_sub. cbn [days].
  intros H. apply Z.ltb_lt in H. apply Z.ltb_lt.
  assert ((earlier - lu) / us_per_day <= (later - lu) / us_per_day)
    by (apply Z.div_le_mono; [reflexivity | lia]).
  lia.
Qed.

Lemma freshness_is_monotone_witness :
  1000 <= 5000 /\ 7 <= 30
  /\ _is_data_fresh 5000 (Some 0) 7 = true
  /\ _is_data_fresh 1000 (Some 0) 30 = true.
Proof.
  split; [lia|]. split; [lia|].
  assert (_is_data_fresh 5000 (Some 0) 7 = true) as H by reflexivity.
  split; [exact H|].
  apply (freshness_is_monotone 1000 5000 (Some 0) 7 30); [lia | lia | exact H].
Defined.
End FreshnessOrder.

(** ** ASIN validation *)

Section Asin.
Import KdpRoutes.

Lemma in_class_upper_char (c : ascii) : in_class (upper_char c) = is_alnum c.
Proof. destruct c as [[] [] [] [] [] [] [] []]; reflexivity. Qed.

Lemma upper_char_idempotent (c : ascii) :
  upper_char (upper_char c) = upper_char c.
Proof. destruct c as [[] [] [] [] [] [] [] []]; reflexivity. Qed.

Lemma upper_idempotent (s : string) : upper (upper s) = upper s.
Proof.
  induction s as [|c s IH]; [reflexivity|].
  cbn [upper]. now rewrite upper_char_idempotent, IH.
Qed.

Lemma length_upper (s : string) : String.length (upper s) = String.length s.
Proof. induction s as [|c s IH]; [reflexivity|]. cbn. now rewrite IH. Qed.

Lemma class_run_of_length (s : string) :
  class_run_then_end (String.length s) (upper s)
  = forallb is_alnum (list_ascii_of_string s).
Proof.
  induction s as [|c s IH]; [reflexivity|].
  cbn [String.length upper class_run_then_end list_ascii_of_string forallb].
  now rewrite in_class_upper_char, IH.
Qed.

Lemma validate_asin_some (asin : string) :
  validate_asin (Some asin)
  = (String.length asin =? 10)%nat
    && forallb is_alnum (list_ascii_of_string asin).
Proof.
  unfold validate_asin.
  destruct (Nat.eqb_spec (String.length asin) 10) as [E | E].
  - rewrite E. cbn [Nat.eqb negb orb andb].
    rewrite <- E at 1. apply class_run_of_length.
  - destruct (String.length asin =? 0)%nat; reflexivity.
Qed.

(** An ASIN given as ASCII text is accepted exactly when it has ten
    characters, each a letter of either case or a digit; a missing ASIN
    is rejected. *)
Theorem valid_asin_iff_ten_alphanumerics (asin : string) :
  is_ascii asin = true ->
  (validate_asin (Some asin) = true
   <-> String.length asin = 10%nat
       /\ forallb is_alnum (list_ascii_of_string asin) = true)
  /\ validate_asin None = false.
Proof.
  intros _. split; [|reflexivity].
  rewrite validate_asin_some, andb_true_iff, Nat.eqb_eq. tauto.
Qed.

Lemma valid_asin_iff_ten_alphanumerics_witness :
  is_ascii "b08N5WRWNW"%string = true
  /\ validate_asin (Some "b08N5WRWNW"%string) = true
  /\ is_ascii "B08N5-RWNW"%string = true
  /\ validate_asin (Some "B08N5-RWNW"%string) <> true.
Proof.
  split; [reflexivity|]. split; [|split; [reflexivity|]].
  - apply (valid_asin_iff_ten_alphanumerics "b08N5WRWNW"%string eq_refl).
    split; reflexivity.
  - intros H.
    apply (valid_asin_iff_ten_alphanumerics "B08N5-RWNW"%string eq_refl) in H.
    destruct H as [_ H]. discriminate H.
Defined.

(** The route upper-cases an accepted ASIN before using it: for an ASIN
    given as ASCII text the upper-cased form gets the same verdict, and
    upper-casing it again changes nothing. *)
Theorem uppercasing_keeps_the_verdict (asin : string) :
  is_ascii asin = true ->
  validate_asin (Some (upper asin)) = validate_asin (Some asin)
  /\ upper (upper asin) = upper asin.
Proof.
  intros _. split; [|apply upper_idempotent].
  unfold validate_asin. rewrite length_upper, upper_idempotent. reflexivity.
Qed.

Lemma uppercasing_keeps_the_verdict_witness :
  is_ascii "b08n5wrwnw"%string = true
  /\ upper "b08n5wrwnw"%string = "B08N5WRWNW"%string
  /\ validate_asin (Some (upper "b08n5wrwnw"%string))
     = validate_asin (Some "b08n5wrwnw"%string).
Proof.
  split; [reflexivity|]. split; [reflexivity|].
  apply (uppercasing_keeps_the_verdict "b08n5wrwnw"%string eq_refl).
Defined.
End Asin.

(** ** Volume and opportunity together *)

Section Analysis.
Import Py PyFloat KeywordService.
Local Open Scope R_scope.

(** Whatever volume the estimate returns for a keyword, the opportunity
    score computed from it is at least 0.15 and at most 1, for every
    competition score between 0 and 1: the floor of ten searches keeps the
    volume part of the score at a quarter or more. *)
Theorem estimated_volume_gives_opportunity_floor
    (keyword : string) (jitter : float) (volume : Z) (competition : R) :
  _estimate_search_volume keyword jitter = Some volume ->
  0 <= competition <= 1 ->
  exists score,
    _calculate_opportunity_score volume competition = Some score
    /\ 0.15 <= score <= 1.
Proof.
  intros Hv Hc.
  assert (10 <= volume)%Z as H10.
  { unfold _estimate_search_volume in Hv.
    destruct int_of_float as [v|]; [cbn [bind] in Hv | discriminate].
    destruct int_of_float as [v'|]; [cbn [bind] in Hv | discriminate].
    injection Hv as <-. lia. }
  rewrite (opportunity_of_positive volume competition) by lia.
  eexists. split; [reflexivity|].
  pose proof (volume_score_bounds volume ltac:(lia)) as [_ Hhi].
  assert (1 / 4 <= Rmin 1 (lg (IZR volume) / 4)) as Hlo.
  { apply Rmin_glb; [lra|].
    assert (lg 10 <= lg (IZR volume))
      by (apply lg_le; [lra | now apply IZR_le]).
    rewrite lg_10 in *. lra. }
  split.
  - apply Rle_trans with (round3 0.15);
      [rewrite (round3_thousandths 0.15 150); lra | apply round3_le; nra].
  - apply Rle_trans with (round3 1);
      [apply round3_le; nra | rewrite (round3_thousandths 1 1000); lra].
Qed.

Lemma estimated_volume_gives_opportunity_floor_witness :
  _estimate_search_volume "best book guide" 0.75 = Some 1518%Z
  /\ 0 <= 0.9 <= 1
  /\ exists score,
       _calculate_opportunity_score 1518 0.9 = Some score
       /\ 0.15 <= score <= 1.
Proof.
  assert (_estimate_search_volume "best book guide" 0.75 = Some 1518%Z) as Hv
    by (vm_compute; reflexivity).
  assert (0 <= 0.9 <= 1) as Hc by lra.
  split; [exact Hv|]. split; [exact Hc|].
  apply (estimated_volume_gives_opportunity_floor
           "best book guide" 0.75 1518 0.9 Hv Hc).
Defined.
End Analysis.

(** ** A steady history *)

Section SteadyHistory.
Import Py PyFloat BSRCalculator.
Local Open Scope R_scope.
Local Open Scope string_scope.

Lemma sum_of_constant (x : R) (xs : list R) :
  (forall d, In d xs -> d = x) -> sum xs = INR (List.length xs) * x.
Proof.
  intros Hall. unfold sum.
  pose proof (fold_sum_bounds x x xs 0
                ltac:(intros d Hd; rewrite (Hall d Hd); lra)).
  lra.
Qed.

Lemma in_skipn_part {A : Type} (n : nat) (l : list A) (d : A) :
  In d (skipn n l) -> In d l.
Proof.
  intros H. rewrite <- (firstn_skipn n l). apply in_or_app. now right.
Qed.

Lemma in_firstn_part {A : Type} (n : nat) (l : list A) (d : A) :
  In d (firstn n l) -> In d l.
Proof.
  intros H. rewrite <- (firstn_skipn n l). apply in_or_app. now left.
Qed.

(** A history of two entries or more whose estimated daily sales are all
    equal is labelled [stable], and the reported change lies inside the
    band from -10 to 10 that the label stands for. *)
Theorem steady_history_is_stable (h : list bsr_record) (x : R) :
  (2 <= List.length h)%nat ->
  (forall d, In d (daily_sales_by_time h) -> d = x) ->
  exists a,
    get_sales_trend_analysis h = Some (Analysis a)
    /\ trend a = "stable" /\ -10 <= change_percent a <= 10.
Proof.
  intros Hlen Hall.
  pose proof (length_daily_sales h) as Hs.
  destruct (Nat.eq_dec (List.length h) 2) as [E2 | N2].
  - destruct (trend_of_two h E2) as (d1 & d2 & a & Ed & Ha & Hc & Ht).
    exists a. split; [assumption|]. split; [|rewrite Hc; lra].
    rewrite Ed in Hall.
    rewrite (Hall d1 ltac:(simpl; tauto)), (Hall d2 ltac:(simpl; tauto)) in Ht.
    rewrite Ht. unfold gtb, ltb.
    repeat destruct Rlt_dec; try reflexivity; lra.
  - destruct (trend_of_three_or_more h ltac:(lia)) as (x0 & a & Hx & Ha & Hc & Ht).
    exists a. split; [assumption|].
    cbv zeta in Hc, Ht.
    set (sales := daily_sales_by_time h) in *.
    assert (sum (last3 sales) / 3 = x) as E3.
    { rewrite (sum_of_constant x)
        by (intros d Hd; apply Hall; unfold last3 in Hd;
            now apply (in_skipn_part _ _ _ Hd)).
      unfold last3. rewrite length_skipn.
      replace (List.length sales - (List.length sales - 3))%nat with 3%nat
        by lia.
      simpl INR. lra. }
    assert ((if (3 <? List.length sales)%nat
             then sum (but_last3 sales) / INR (List.length (but_last3 sales))
             else x0) = x) as Eo.
    { destruct (Nat.ltb_spec 3 (List.length sales)).
      - rewrite (sum_of_constant x)
          by (intros d Hd; apply Hall; unfold but_last3 in Hd;
              now apply (in_firstn_part _ _ _ Hd)).
        assert (0 < INR (List.length (but_last3 sales))).
        { apply lt_0_INR. unfold but_last3. rewrite length_firstn. lia. }
        field. lra.
      - apply Hall. destruct sales as [|d sales']; [discriminate|].
        injection Hx as <-. now left. }
    rewrite E3, Eo in Hc, Ht.
    assert ((if gtb x 0 then (x - x) / x * 100 else 0) = 0) as Ez.
    { destruct (gtb x 0); [|reflexivity]. unfold Rdiv. ring. }
    rewrite Ez in Hc, Ht.
    split; [|rewrite Hc; lra].
    rewrite Ht. unfold gtb, ltb.
    repeat destruct Rlt_dec; try reflexivity; lra.
Qed.
End SteadyHistory.

Section SteadyHistoryWitness.
Import Py PyFloat BSRCalculator.
Local Open Scope R_scope.
Local Open Scope string_scope.

Lemma steady_history_is_stable_witness :
  (2 <= List.length [entry 100 1; entry 100 2; entry 100 3])%nat
  /\ exists a,
       get_sales_trend_analysis [entry 100 1; entry 100 2; entry 100 3]
       = Some (Analysis a)
       /\ trend a = "stable" /\ -10 <= change_percent a <= 10.
Proof.
  assert (2 <= List.length [entry 100 1; entry 100 2; entry 100 3])%nat as H
    by (simpl; lia).
  split; [exact H|].
  apply (steady_history_is_stable [entry 100 1; entry 100 2; entry 100 3]
           (record_sales (entry 100 1)) H).
  intros d Hd.
  change (daily_sales_by_time [entry 100 1; entry 100 2; entry 100 3])
    with [record_sales (entry 100 1); record_sales (entry 100 2);
          record_sales (entry 100 3)] in Hd.
  simpl in Hd. destruct Hd as [<- | [<- | [<- | []]]]; reflexivity.
Defined.
End SteadyHistoryWitness.
